(** * JSON checker: dependent multi-query resolution

    A shallow embedding of [src/checkers/jsonchecker.py]: the query
    evaluator [query_json], the sequential resolver [query_sequence], the
    timestamp normaliser [parse_timestamp] and the orchestrator
    [JSONChecker.check] with its two flows.

    Python values are modelled as follows.
    - [str] is [string], one [ascii] per character (text whose characters
      are code points below 256); [bytes] is [list byte].
    - The [results] dict of [query_sequence] is an insertion-ordered
      association list, because [dict.items()] order decides the order of
      the [--arg] options on the jq command line.
    - [checker_data] is a [gmap string string]: only lookups are made on it,
      and the declared schema types every property used here as a string.
    - Exceptions are values of [pyexn]; a computation returns [pyexn + A].
    - Awaited calls on collaborators (HTTP session, jq process, version
      bookkeeping) are answered by an environment [Env] and recorded in a
      history of events, so that "is never invoked" and "exactly once" are
      statements about the history. *)

From Stdlib Require Import Strings.String Strings.Ascii Strings.Byte Lists.List ZArith Bool Lia.
From stdpp Require Import base option gmap strings list.

Import ListNotations.
Local Open Scope string_scope.
Local Open Scope list_scope.

(** ** Exceptions *)

Inductive pyexn : Type :=
| AssertionError
| KeyError (key : string)
| UnicodeDecodeError
| ValueError (msg : string)
| CalledProcessError (returncode : Z) (cmd : list string)
| CheckerQueryError (msg : option string) (cause : pyexn)
| OtherError (cls : string).

Definition is_CalledProcessError (e : pyexn) : bool :=
  match e with CalledProcessError _ _ => true | _ => false end.

Definition is_CheckerQueryError (e : pyexn) : bool :=
  match e with CheckerQueryError _ _ => true | _ => false end.

(** ** Data *)

Definition bytes : Type := list byte.

(** [datetime]: the fields of an aware or naive [datetime.datetime];
    [utcoffset] is in seconds, [None] for a naive value. *)
Record datetime : Type := {
  year : Z; month : Z; day : Z;
  hour : Z; minute : Z; second : Z; microsecond : Z;
  utcoffset : option Z
}.

(** Modelled from the spec: the class [ExternalGitRef] is declared in
    [lib/externaldata.py], which is not part of the sources read here.
    Its fields are those of the spec's git version record, in the order
    of the constructor call in [_check_git]. *)
Record ExternalGitRef : Type := {
  url : string;
  commit : option string;
  tag : string;
  branch : option string;
  version : option string;
  timestamp : option datetime
}.

(** Modelled from the spec: the classes [ExternalData] and
    [ExternalGitRepo] are declared in [lib/externaldata.py]. Of an
    external-data record the checker reads [checker_data] and, for a git
    repository, [current_version]; the file name identifies the record. *)
Record ExternalData : Type := {
  data_filename : string;
  data_checker_data : gmap string string
}.

Record ExternalGitRepo : Type := {
  repo_filename : string;
  repo_checker_data : gmap string string;
  current_version : ExternalGitRef
}.

(** The argument of [check]: [isinstance(external_data, ExternalGitRepo)]
    is the constructor test. *)
Inductive external_data : Type :=
| IsData (d : ExternalData)
| IsGitRepo (r : ExternalGitRepo).

Definition checker_data (ed : external_data) : gmap string string :=
  match ed with
  | IsData d => data_checker_data d
  | IsGitRepo r => repo_checker_data r
  end.

(** ** Calls on collaborators *)

Inductive event : Type :=
| EvGet (json_url : string)
| EvRun (argv : list string) (input : bytes)
| EvUpdateVersion (ed : ExternalData) (latest_version latest_url : string)
    (follow_redirects : bool)
| EvFetchRemote (ref : ExternalGitRef)
| EvSetNewVersion (ed : ExternalGitRepo) (ref : ExternalGitRef).

Definition is_EvRun (ev : event) : bool :=
  match ev with EvRun _ _ => true | _ => false end.

Definition is_EvFetchRemote (ev : event) : bool :=
  match ev with EvFetchRemote _ => true | _ => false end.

(** What the module imports or inherits and this file does not define.
    Each awaited collaborator answers from the history of calls made so
    far. [NETWORK_ERRORS] is the tuple of exception classes caught at the
    fetch; [fromisoformat] answers [inl msg] for [ValueError(msg)];
    [bytes_decode] answers [None] for [UnicodeDecodeError]. *)
Record Env : Type := {
  should_check : external_data -> bool;
  NETWORK_ERRORS : pyexn -> bool;
  session_get : list event -> string -> pyexn + bytes;
  Command_run : list event -> list string -> bytes -> pyexn + (bytes * bytes);
  bytes_decode : bytes -> option string;
  fromisoformat : string -> string + datetime;
  _update_version :
    list event -> ExternalData -> string -> string -> bool -> pyexn + unit;
  fetch_remote : list event -> ExternalGitRef -> pyexn + ExternalGitRef;
  set_new_version :
    list event -> ExternalGitRepo -> ExternalGitRef -> pyexn + unit
}.

(** ** The monad of awaited computations *)

Definition M (A : Type) : Type := list event -> (pyexn + A) * list event.

Definition ret {A : Type} (a : A) : M A := fun h => (inr a, h).

Definition raise {A : Type} (e : pyexn) : M A := fun h => (inl e, h).

Definition bind {A B : Type} (m : M A) (k : A -> M B) : M B :=
  fun h =>
    match m h with
    | (inl e, h') => (inl e, h')
    | (inr a, h') => k a h'
    end.

(** [try: m except C as err: raise (wrap err) from err], where [catches]
    decides membership of the raised exception in the classes [C]. *)
Definition try_reraise {A : Type} (m : M A) (catches : pyexn -> bool)
    (wrap : pyexn -> pyexn) : M A :=
  fun h =>
    match m h with
    | (inl e, h') => (inl (if catches e then wrap e else e), h')
    | (inr a, h') => (inr a, h')
    end.

(** A pure step that may raise. *)
Definition lift {A : Type} (r : pyexn + A) : M A := fun h => (r, h).

(** An awaited call: the answer is computed from the history before the
    call, and the call is appended to the history. *)
Definition call {A : Type} (ev : event) (answer : list event -> pyexn + A)
    : M A :=
  fun h => (answer h, h ++ [ev]).

Declare Scope py_scope.
Delimit Scope py_scope with py.
Notation "'let!' x ':=' m 'in' k" := (bind m (fun x => k))
  (at level 10, x pattern, m at level 100, k at level 200) : py_scope.
Local Open Scope py_scope.

(** ** Python dict with insertion order *)

Definition dict : Type := list (string * string).

Fixpoint dict_get (d : dict) (k : string) : option string :=
  match d with
  | [] => None
  | (k', v) :: d' => if String.eqb k' k then Some v else dict_get d' k
  end.

(** [d[k] = v]: an existing key keeps its position, a new key goes last. *)
Fixpoint dict_set (d : dict) (k v : string) : dict :=
  match d with
  | [] => [(k, v)]
  | (k', v') :: d' =>
      if String.eqb k' k then (k', v) :: d' else (k', v') :: dict_set d' k v
  end.

(** [d[k]], raising [KeyError]. *)
Definition dict_item (d : dict) (k : string) : pyexn + string :=
  match dict_get d k with
  | Some v => inr v
  | None => inl (KeyError k)
  end.

(** [checker_data[k]], raising [KeyError]. *)
Definition config_item (cd : gmap string string) (k : string)
    : pyexn + string :=
  match cd !! k with
  | Some v => inr v
  | None => inl (KeyError k)
  end.

(** ** str.strip() *)

(** [str.isspace] on one character, for code points below 256. *)
Definition isspace (c : ascii) : bool :=
  let n := nat_of_ascii c in
  (((9 <=? n) && (n <=? 13)) || ((28 <=? n) && (n <=? 32))
   || (n =? 133) || (n =? 160))%nat.

Fixpoint lstrip_chars (l : list ascii) : list ascii :=
  match l with
  | c :: l' => if isspace c then lstrip_chars l' else l
  | [] => []
  end.

Definition strip (s : string) : string :=
  string_of_list_ascii
    (rev (lstrip_chars (rev (lstrip_chars (list_ascii_of_string s))))).

(** ** query_json *)

Definition dq : string := String "034"%char EmptyString.

Definition typecheck_q : string :=
  ".|type as $rt | if $rt==" +:+ dq +:+ "string" +:+ dq +:+ " or $rt=="
  +:+ dq +:+ "number" +:+ dq +:+ " then . else error($rt) end".

(** The loop [for var_name, var_value in variables.items(): var_args += ...]. *)
Definition var_args_of (variables : option dict) : list string :=
  match variables with
  | None => []
  | Some vs =>
      fold_left (fun var_args '(var_name, var_value) =>
                   var_args ++ ["--arg"; var_name; var_value]) vs []
  end.

Definition effective_query (query : string) : string :=
  "( " +:+ query +:+ " ) | ( " +:+ typecheck_q +:+ " )".

Definition jq_cmd (query : string) (variables : option dict) : list string :=
  ["jq"] ++ var_args_of variables ++ ["-r"; "-e"; effective_query query].

Section Checker.

Variable env : Env.

Definition query_json (query : string) (data : bytes)
    (variables : option dict) : M string :=
  let jq_cmd := jq_cmd query variables in
  let! out :=
    try_reraise (call (EvRun jq_cmd data)
                      (fun h => Command_run env h jq_cmd data))
                is_CalledProcessError
                (CheckerQueryError (Some "Error running jq")) in
  let jq_stdout := fst out in
  match bytes_decode env jq_stdout with
  | Some s => ret (strip s)
  | None => raise UnicodeDecodeError
  end.

(** ** query_sequence *)

(** [not query] for an optional string. *)
Definition falsy (query : option string) : bool :=
  match query with
  | None => true
  | Some q => String.eqb q ""
  end.

Fixpoint query_sequence_from (results : dict) (json_data : bytes)
    (queries : list (string * option string)) : M dict :=
  match queries with
  | [] => ret results
  | (result_key, query) :: queries' =>
      if falsy query then query_sequence_from results json_data queries'
      else
        let! r := query_json (default "" query) json_data (Some results) in
        query_sequence_from (dict_set results result_key r)
                            json_data queries'
  end.

Definition query_sequence (json_data : bytes)
    (queries : list (string * option string)) : M dict :=
  query_sequence_from [] json_data queries.

(** ** parse_timestamp *)

(** [re.sub(r"Z$", "+00:00", s)]. Without [re.MULTILINE], [$] matches at
    the end of the string and also just before a newline that ends the
    string; at most one [Z] can be followed by such a position. *)
Definition sub_Z_end (s : string) : string :=
  match rev (list_ascii_of_string s) with
  | "Z"%char :: r => string_of_list_ascii (rev r) +:+ "+00:00"
  | "010"%char :: "Z"%char :: r =>
      string_of_list_ascii (rev r) +:+ "+00:00" +:+ String "010"%char ""
  | _ => s
  end.

Definition parse_timestamp (date_string : option string)
    : pyexn + option datetime :=
  match date_string with
  | None => inr None
  | Some s =>
      match fromisoformat env (sub_Z_end s) with
      | inr d => inr (Some d)
      | inl msg =>
          inl (CheckerQueryError (Some "Failed to parse timestamp")
                                 (ValueError msg))
      end
  end.

(** ** JSONChecker *)

Definition py_assert (b : bool) : M unit :=
  if b then ret tt else raise AssertionError.

Definition _check_data (json_data : bytes) (external_data : ExternalData)
    : M unit :=
  let checker_data := data_checker_data external_data in
  let tag_query := checker_data !! "tag-query" in
  let commit_query := checker_data !! "commit-query" in
  let! version_query := lift (config_item checker_data "version-query") in
  let! url_query := lift (config_item checker_data "url-query") in
  let! results :=
    query_sequence json_data
      [("tag", tag_query); ("commit", commit_query);
       ("version", Some version_query); ("url", Some url_query)] in
  let! latest_version := lift (dict_item results "version") in
  let! latest_url := lift (dict_item results "url") in
  call (EvUpdateVersion external_data latest_version latest_url false)
       (fun h => _update_version env h external_data
                   latest_version latest_url false).

Definition _check_git (json_data : bytes) (external_data : ExternalGitRepo)
    : M unit :=
  let checker_data := repo_checker_data external_data in
  let! tag_query := lift (config_item checker_data "tag-query") in
  let! results :=
    query_sequence json_data
      [("tag", Some tag_query);
       ("commit", checker_data !! "commit-query");
       ("version", checker_data !! "version-query");
       ("timestamp", checker_data !! "timestamp-query")] in
  let a_url := url (current_version external_data) in
  let a_commit := dict_get results "commit" in
  let! a_tag := lift (dict_item results "tag") in
  let a_version := dict_get results "version" in
  let! a_timestamp := lift (parse_timestamp (dict_get results "timestamp")) in
  let new_version :=
    {| url := a_url; commit := a_commit; tag := a_tag; branch := None;
       version := a_version; timestamp := a_timestamp |} in
  let! new_version :=
    match commit new_version with
    | None => call (EvFetchRemote new_version)
                   (fun h => fetch_remote env h new_version)
    | Some _ => ret new_version
    end in
  call (EvSetNewVersion external_data new_version)
       (fun h => set_new_version env h external_data new_version).

Definition check (external_data : external_data) : M unit :=
  let! _ := py_assert (should_check env external_data) in
  let! json_url := lift (config_item (checker_data external_data) "url") in
  let! json_data :=
    try_reraise (call (EvGet json_url) (fun h => session_get env h json_url))
                (NETWORK_ERRORS env) (CheckerQueryError None) in
  match external_data with
  | IsGitRepo r => _check_git json_data r
  | IsData d => _check_data json_data d
  end.

End Checker.

(** ** CHECKER_DATA_SCHEMA *)

(** The part of JSON Schema the declaration uses: an object schema with
    typed properties, a [required] list, and [anyOf] alternatives that are
    each a [required] list. [format] is an annotation. *)
Record object_schema : Type := {
  properties : list (string * (string * option string));
  required : list string;
  anyOf : list (list string)
}.

Definition CHECKER_DATA_SCHEMA : object_schema := {|
  properties :=
    [("url", ("string", Some "uri"));
     ("tag-query", ("string", None));
     ("commit-query", ("string", None));
     ("version-query", ("string", None));
     ("url-query", ("string", None));
     ("timestamp-query", ("string", None))];
  required := ["url"];
  anyOf := [["version-query"; "url-query"]; ["tag-query"]]
|}.

Definition has_keys (cd : gmap string string) (keys : list string) : bool :=
  forallb (fun k => bool_decide (is_Some (cd !! k))) keys.

(** Validation of the checker's own mapping, whose values are strings: a
    property validates exactly when its declared type is ["string"]. The
    check that inspects the value, on a configuration of JSON values, is
    [validates_json] below. *)
Definition property_ok (cd : gmap string string)
    (p : string * (string * option string)) : bool :=
  match cd !! fst p with
  | Some _ => String.eqb (fst (snd p)) "string"
  | None => true
  end.

Definition validates (s : object_schema) (cd : gmap string string) : bool :=
  forallb (property_ok cd) (properties s)
  && has_keys cd (required s)
  && existsb (has_keys cd) (anyOf s).

(** ** jq

    jq is an external program; the code hands it a command line and a
    document and reads its exit status and standard output. The part of
    jq that such a command line can reach is modelled here after jq's
    manual: option parsing, the lexer (with [#] comments), the grammar of
    paths, literals, variables, [,], [|], [as], [if], [or], [and], [==],
    [type], [empty] and [error(...)], their evaluation on a JSON value,
    the exit status and the [-r] output. A program outside this part is
    [None], never a guess. *)

#[local] Unset Elimination Schemes.
Inductive json : Type :=
| JNull
| JBool (b : bool)
| JNumber (literal : string)
| JString (s : string)
| JArray (items : list json)
| JObject (members : list (string * json)).
#[local] Set Elimination Schemes.

(** jq's [type]. *)
Definition jq_type (v : json) : string :=
  match v with
  | JNull => "null"
  | JBool _ => "boolean"
  | JNumber _ => "number"
  | JString _ => "string"
  | JArray _ => "array"
  | JObject _ => "object"
  end.

(** A filter run on one input gives a stream of outputs that an error may
    cut short. *)
Record jq_stream : Type := {
  outputs : list json;
  failure : option json
}.

Definition jq_emit (v : json) : jq_stream :=
  {| outputs := [v]; failure := None |}.

Definition jq_error (message : json) : jq_stream :=
  {| outputs := []; failure := Some message |}.

(** Exit status of [jq -e]: 5 after an error, 4 when nothing was output,
    1 when the last output is [false] or [null], otherwise 0. *)
Definition jq_exit_status (s : jq_stream) : Z :=
  match failure s with
  | Some _ => 5
  | None =>
      match last (outputs s) with
      | None => 4
      | Some JNull | Some (JBool false) => 1
      | Some _ => 0
      end
  end%Z.

Definition is_scalar (v : json) : bool :=
  match v with
  | JString _ | JNumber _ => true
  | _ => false
  end.

(** ** Lexer *)

Inductive token : Type :=
| TDot | TField (name : string)
| TPipe | TComma | TLParen | TRParen
| TEqEq | TNeq
| TVar (name : string)
| TIdent (name : string)
| TStr (s : string)
| TNum (literal : string).

Definition in_range (lo hi : nat) (c : ascii) : bool :=
  let n := nat_of_ascii c in ((lo <=? n) && (n <=? hi))%nat.

Definition is_digit (c : ascii) : bool := in_range 48 57 c.
Definition is_alpha (c : ascii) : bool :=
  in_range 97 122 c || in_range 65 90 c || Ascii.eqb c "_".
Definition is_ident_char (c : ascii) : bool := is_alpha c || is_digit c.
Definition is_blank (c : ascii) : bool :=
  Ascii.eqb c " " || Ascii.eqb c "009" || Ascii.eqb c "010" || Ascii.eqb c "013".

Fixpoint lex_span (p : ascii -> bool) (cs : list ascii) : list ascii * list ascii :=
  match cs with
  | c :: cs' =>
      if p c then let '(a, b) := lex_span p cs' in (c :: a, b) else ([], cs)
  | [] => ([], [])
  end.

(** The rest of the input after a comment, [None] when the comment holds a
    backslash or a carriage return (jq versions differ on those). *)
Fixpoint skip_comment (cs : list ascii) : option (list ascii) :=
  match cs with
  | [] => Some []
  | c :: cs' =>
      if Ascii.eqb c "010" then Some cs'
      else if Ascii.eqb c "\" || Ascii.eqb c "013" then None
      else skip_comment cs'
  end.

(** The body of a string literal without escapes, and what follows it. *)
Fixpoint string_body (cs : list ascii) : option (list ascii * list ascii) :=
  match cs with
  | [] => None
  | c :: cs' =>
      if Ascii.eqb c "034" then Some ([], cs')
      else if Ascii.eqb c "\" then None
      else match string_body cs' with
           | Some (body, rest) => Some (c :: body, rest)
           | None => None
           end
  end.

Definition reserved_variable (name : string) : bool :=
  String.eqb name "ENV" || String.eqb name "__loc__"
  || String.eqb name "ARGS" || String.eqb name "__prog_args".

Definition starts_with (p : ascii -> bool) (cs : list ascii) : bool :=
  match cs with c :: _ => p c | [] => false end.

Fixpoint jq_lex (fuel : nat) (cs : list ascii) : option (list token) :=
  match cs with
  | [] => Some []
  | c :: rest =>
      match fuel with
      | 0 => None
      | S fuel' =>
          let more (t : token) (cs' : list ascii) :=
            match jq_lex fuel' cs' with
            | Some ts => Some (t :: ts)
            | None => None
            end in
          if is_blank c then jq_lex fuel' rest
          else if Ascii.eqb c "#" then
            match skip_comment rest with
            | Some rest' => jq_lex fuel' rest'
            | None => None
            end
          else if Ascii.eqb c "." then
            if starts_with is_alpha rest then
              let '(name, rest') := lex_span is_ident_char rest in
              more (TField (string_of_list_ascii name)) rest'
            else if starts_with (fun x => is_digit x || Ascii.eqb x "."
                                          || Ascii.eqb x "034") rest
            then None
            else more TDot rest
          else if Ascii.eqb c "|" then
            if starts_with (Ascii.eqb "=") rest then None else more TPipe rest
          else if Ascii.eqb c "," then more TComma rest
          else if Ascii.eqb c "(" then more TLParen rest
          else if Ascii.eqb c ")" then more TRParen rest
          else if Ascii.eqb c "=" then
            match rest with
            | c2 :: rest' => if Ascii.eqb c2 "=" then more TEqEq rest' else None
            | [] => None
            end
          else if Ascii.eqb c "!" then
            match rest with
            | c2 :: rest' => if Ascii.eqb c2 "=" then more TNeq rest' else None
            | [] => None
            end
          else if Ascii.eqb c "$" then
            if starts_with is_alpha rest then
              let '(name, rest') := lex_span is_ident_char rest in
              if reserved_variable (string_of_list_ascii name) then None
              else if starts_with (Ascii.eqb ":") rest' then None
              else more (TVar (string_of_list_ascii name)) rest'
            else None
          else if Ascii.eqb c "034" then
            match string_body rest with
            | Some (body, rest') => more (TStr (string_of_list_ascii body)) rest'
            | None => None
            end
          else if is_digit c then
            let '(digits, rest') := lex_span is_digit (c :: rest) in
            if starts_with (fun x => is_alpha x || Ascii.eqb x ".") rest'
            then None
            else more (TNum (string_of_list_ascii digits)) rest'
          else if is_alpha c then
            let '(name, rest') := lex_span is_ident_char (c :: rest) in
            if starts_with (Ascii.eqb ":") rest' then None
            else more (TIdent (string_of_list_ascii name)) rest'
          else None
      end
  end.

Definition jq_tokens (text : string) : option (list token) :=
  jq_lex (String.length text) (list_ascii_of_string text).


(** ** Parser *)

Inductive jq_filter : Type :=
| FDot
| FField (e : jq_filter) (name : string)
| FLit (v : json)
| FVar (name : string)
| FType
| FEmpty
| FError (e : jq_filter)
| FPipe (a b : jq_filter)
| FComma (a b : jq_filter)
| FOr (a b : jq_filter)
| FAnd (a b : jq_filter)
| FEq (a b : jq_filter)
| FNeq (a b : jq_filter)
| FAs (e : jq_filter) (name : string) (body : jq_filter)
| FIf (c t e : jq_filter).

Definition is_ident (name : string) (t : token) : bool :=
  match t with TIdent n => String.eqb n name | _ => false end.

(** Precedence levels, loosest first: 0 pipe and [as], 1 comma, 2 [or],
    3 [and], 4 comparison, 5 postfix terms. *)
Fixpoint jq_parse_at (fuel : nat) (lvl : nat) (ts : list token)
    : option (jq_filter * list token) :=
  match fuel with
  | 0 => None
  | S fuel' =>
      match lvl with
      | 0 =>
          let plain :=
            match jq_parse_at fuel' 1 ts with
            | Some (a, TPipe :: ts') =>
                match jq_parse_at fuel' 0 ts' with
                | Some (b, ts'') => Some (FPipe a b, ts'')
                | None => None
                end
            | r => r
            end in
          match jq_parse_at fuel' 5 ts with
          | Some (e, t :: TVar x :: TPipe :: ts') =>
              if is_ident "as" t then
                match jq_parse_at fuel' 0 ts' with
                | Some (body, ts'') => Some (FAs e x body, ts'')
                | None => None
                end
              else plain
          | _ => plain
          end
      | 1 | 2 | 3 =>
          match jq_parse_at fuel' (S lvl) ts with
          | Some (a, ts') => jq_parse_more fuel' lvl a ts'
          | None => None
          end
      | 4 =>
          match jq_parse_at fuel' 5 ts with
          | Some (a, TEqEq :: ts') =>
              match jq_parse_at fuel' 5 ts' with
              | Some (b, ts'') => Some (FEq a b, ts'')
              | None => None
              end
          | Some (a, TNeq :: ts') =>
              match jq_parse_at fuel' 5 ts' with
              | Some (b, ts'') => Some (FNeq a b, ts'')
              | None => None
              end
          | r => r
          end
      | _ =>
          match ts with
          | TDot :: ts' => jq_parse_more fuel' 5 FDot ts'
          | TField f :: ts' => jq_parse_more fuel' 5 (FField FDot f) ts'
          | TVar x :: ts' => jq_parse_more fuel' 5 (FVar x) ts'
          | TStr s :: ts' => jq_parse_more fuel' 5 (FLit (JString s)) ts'
          | TNum n :: ts' => jq_parse_more fuel' 5 (FLit (JNumber n)) ts'
          | TLParen :: ts' =>
              match jq_parse_at fuel' 0 ts' with
              | Some (e, TRParen :: ts'') => jq_parse_more fuel' 5 e ts''
              | _ => None
              end
          | TIdent name :: ts' =>
              if String.eqb name "true"
              then jq_parse_more fuel' 5 (FLit (JBool true)) ts'
              else if String.eqb name "false"
              then jq_parse_more fuel' 5 (FLit (JBool false)) ts'
              else if String.eqb name "null"
              then jq_parse_more fuel' 5 (FLit JNull) ts'
              else if String.eqb name "type"
              then jq_parse_more fuel' 5 FType ts'
              else if String.eqb name "empty"
              then jq_parse_more fuel' 5 FEmpty ts'
              else if String.eqb name "error" then
                match ts' with
                | TLParen :: ts'' =>
                    match jq_parse_at fuel' 0 ts'' with
                    | Some (e, TRParen :: ts3) =>
                        jq_parse_more fuel' 5 (FError e) ts3
                    | _ => None
                    end
                | _ => None
                end
              else if String.eqb name "if" then
                match jq_parse_at fuel' 0 ts' with
                | Some (c, t1 :: ts1) =>
                    if is_ident "then" t1 then
                      match jq_parse_at fuel' 0 ts1 with
                      | Some (a, t2 :: ts2) =>
                          if is_ident "else" t2 then
                            match jq_parse_at fuel' 0 ts2 with
                            | Some (b, t3 :: ts3) =>
                                if is_ident "end" t3
                                then jq_parse_more fuel' 5 (FIf c a b) ts3
                                else None
                            | _ => None
                            end
                          else None
                      | _ => None
                      end
                    else None
                | _ => None
                end
              else None
          | _ => None
          end
      end
  end
with jq_parse_more (fuel : nat) (lvl : nat) (acc : jq_filter) (ts : list token)
    : option (jq_filter * list token) :=
  match fuel with
  | 0 => None
  | S fuel' =>
      match lvl, ts with
      | 1, TComma :: ts' =>
          match jq_parse_at fuel' 2 ts' with
          | Some (b, ts'') => jq_parse_more fuel' 1 (FComma acc b) ts''
          | None => None
          end
      | 2, t :: ts' =>
          if is_ident "or" t then
            match jq_parse_at fuel' 3 ts' with
            | Some (b, ts'') => jq_parse_more fuel' 2 (FOr acc b) ts''
            | None => None
            end
          else Some (acc, ts)
      | 3, t :: ts' =>
          if is_ident "and" t then
            match jq_parse_at fuel' 4 ts' with
            | Some (b, ts'') => jq_parse_more fuel' 3 (FAnd acc b) ts''
            | None => None
            end
          else Some (acc, ts)
      | 5, TField f :: ts' => jq_parse_more fuel' 5 (FField acc f) ts'
      | _, _ => Some (acc, ts)
      end
  end.

(** A program text parses when its tokens are one filter with nothing left
    over; [None] also stands for every program outside this part of jq. *)
Definition jq_parse (text : string) : option jq_filter :=
  match jq_tokens text with
  | Some ts =>
      match jq_parse_at (8 * S (length ts)) 0 ts with
      | Some (f, []) => Some f
      | _ => None
      end
  | None => None
  end.


(** ** Evaluation *)

Definition jq_truthy (v : json) : bool :=
  match v with
  | JNull | JBool false => false
  | _ => true
  end.

(** [==] where the answer does not depend on how numbers or compound
    values compare; [None] otherwise. *)
Definition json_eq (x y : json) : option bool :=
  match x, y with
  | JNull, JNull => Some true
  | JBool a, JBool b => Some (Bool.eqb a b)
  | JString a, JString b => Some (String.eqb a b)
  | JNumber a, JNumber b => if String.eqb a b then Some true else None
  | JArray _, JArray _ | JObject _, JObject _ => None
  | _, _ => Some false
  end.

Fixpoint jq_member (ms : list (string * json)) (name : string) : json :=
  match ms with
  | [] => JNull
  | (k, v) :: ms' => if String.eqb k name then v else jq_member ms' name
  end.

Definition jq_field (name : string) (v : json) : option jq_stream :=
  match v with
  | JObject ms => Some (jq_emit (jq_member ms name))
  | JNull => Some (jq_emit JNull)
  | _ =>
      Some (jq_error
              (JString ("Cannot index " +:+ jq_type v +:+ " with "
                        +:+ dq +:+ name +:+ dq)))
  end.

(** [g] on each value in turn, stopping at the first error. *)
Fixpoint jq_each (g : json -> option jq_stream) (vs : list json)
    (after : option json) : option jq_stream :=
  match vs with
  | [] => Some {| outputs := []; failure := after |}
  | v :: vs' =>
      match g v with
      | None => None
      | Some s =>
          match failure s with
          | Some e => Some {| outputs := outputs s; failure := Some e |}
          | None =>
              match jq_each g vs' after with
              | Some rest =>
                  Some {| outputs := outputs s ++ outputs rest;
                          failure := failure rest |}
              | None => None
              end
          end
      end
  end.

Definition jq_then (s : option jq_stream) (g : json -> option jq_stream)
    : option jq_stream :=
  match s with
  | Some s => jq_each g (outputs s) (failure s)
  | None => None
  end.

Definition jq_bools (s : option jq_stream) : option jq_stream :=
  jq_then s (fun v => Some (jq_emit (JBool (jq_truthy v)))).

Fixpoint jq_lookup (rho : list (string * json)) (name : string)
    : option json :=
  match rho with
  | [] => None
  | (k, v) :: rho' => if String.eqb k name then Some v else jq_lookup rho' name
  end.

Fixpoint jq_eval (f : jq_filter) (rho : list (string * json)) (input : json)
    : option jq_stream :=
  match f with
  | FDot => Some (jq_emit input)
  | FField e name => jq_then (jq_eval e rho input) (jq_field name)
  | FLit v => Some (jq_emit v)
  | FVar x =>
      match jq_lookup rho x with
      | Some v => Some (jq_emit v)
      | None => None
      end
  | FType => Some (jq_emit (JString (jq_type input)))
  | FEmpty => Some {| outputs := []; failure := None |}
  | FError e =>
      match jq_eval e rho input with
      | Some s =>
          match outputs s with
          | v :: _ => Some (jq_error v)
          | [] => Some s
          end
      | None => None
      end
  | FPipe a b => jq_then (jq_eval a rho input) (jq_eval b rho)
  | FComma a b =>
      match jq_eval a rho input with
      | Some sa =>
          match failure sa with
          | Some _ => Some sa
          | None =>
              match jq_eval b rho input with
              | Some sb =>
                  Some {| outputs := outputs sa ++ outputs sb;
                          failure := failure sb |}
              | None => None
              end
          end
      | None => None
      end
  | FOr a b =>
      jq_then (jq_eval a rho input)
        (fun x => if jq_truthy x then Some (jq_emit (JBool true))
                  else jq_bools (jq_eval b rho input))
  | FAnd a b =>
      jq_then (jq_eval a rho input)
        (fun x => if jq_truthy x then jq_bools (jq_eval b rho input)
                  else Some (jq_emit (JBool false)))
  | FEq a b =>
      jq_then (jq_eval b rho input)
        (fun y => jq_then (jq_eval a rho input)
                    (fun x => match json_eq x y with
                              | Some t => Some (jq_emit (JBool t))
                              | None => None
                              end))
  | FNeq a b =>
      jq_then (jq_eval b rho input)
        (fun y => jq_then (jq_eval a rho input)
                    (fun x => match json_eq x y with
                              | Some t => Some (jq_emit (JBool (negb t)))
                              | None => None
                              end))
  | FAs e x body =>
      jq_then (jq_eval e rho input)
        (fun v => jq_eval body ((x, v) :: rho) input)
  | FIf c t e =>
      jq_then (jq_eval c rho input)
        (fun v => if jq_truthy v then jq_eval t rho input
                  else jq_eval e rho input)
  end.

(** A variable used where nothing binds it: jq refuses to compile. *)
Fixpoint jq_unbound (bound : list string) (f : jq_filter) : bool :=
  match f with
  | FVar x => negb (existsb (String.eqb x) bound)
  | FDot | FLit _ | FType | FEmpty => false
  | FField e _ | FError e => jq_unbound bound e
  | FPipe a b | FComma a b | FOr a b | FAnd a b | FEq a b | FNeq a b =>
      jq_unbound bound a || jq_unbound bound b
  | FAs e x body => jq_unbound bound e || jq_unbound (x :: bound) body
  | FIf c t e =>
      jq_unbound bound c || jq_unbound bound t || jq_unbound bound e
  end.

(** ** The command line *)

Record jq_options : Type := {
  opt_named : dict;
  opt_raw : bool;
  opt_exit : bool;
  opt_program : option string
}.

Definition is_option (a : string) : bool :=
  match a with
  | String c _ => Ascii.eqb c "-"
  | EmptyString => false
  end.

Fixpoint jq_getopt (args : list string) (o : jq_options)
    : option jq_options :=
  match args with
  | [] => Some o
  | a :: rest =>
      if String.eqb a "--arg" then
        match rest with
        | n :: v :: rest' =>
            jq_getopt rest'
              {| opt_named := opt_named o ++ [(n, v)]; opt_raw := opt_raw o;
                 opt_exit := opt_exit o; opt_program := opt_program o |}
        | _ => None
        end
      else if String.eqb a "-r" then
        jq_getopt rest
          {| opt_named := opt_named o; opt_raw := true;
             opt_exit := opt_exit o; opt_program := opt_program o |}
      else if String.eqb a "-e" then
        jq_getopt rest
          {| opt_named := opt_named o; opt_raw := opt_raw o;
             opt_exit := true; opt_program := opt_program o |}
      else if is_option a then None
      else
        match opt_program o with
        | None =>
            jq_getopt rest
              {| opt_named := opt_named o; opt_raw := opt_raw o;
                 opt_exit := opt_exit o; opt_program := Some a |}
        | Some _ => None
        end
  end.

Fixpoint distinct_names (ks : list string) : bool :=
  match ks with
  | [] => true
  | k :: ks' => negb (existsb (String.eqb k) ks') && distinct_names ks'
  end.

(** What a run of jq amounts to: its exit status and the values it
    printed. *)
Record jq_run : Type := {
  exit_code : Z;
  printed : list json
}.

(** jq on a command line, reading one JSON value. [None] when the command
    line or the program is outside the part of jq modelled here. *)
Definition jq_main (argv : list string) (doc : json) : option jq_run :=
  match argv with
  | [] => None
  | _ :: args =>
      match jq_getopt args {| opt_named := []; opt_raw := false;
                              opt_exit := false; opt_program := None |} with
      | Some o =>
          match opt_program o with
          | Some text =>
              if negb (distinct_names (map fst (opt_named o))) then None
              else
                match jq_parse text with
                | Some f =>
                    if jq_unbound (map fst (opt_named o)) f
                    then Some {| exit_code := 3; printed := [] |}
                    else
                      match jq_eval f (map (fun kv => (fst kv, JString (snd kv)))
                                           (opt_named o)) doc with
                      | Some s =>
                          Some {| exit_code :=
                                    if opt_exit o then jq_exit_status s
                                    else match failure s with
                                         | Some _ => 5%Z
                                         | None => 0%Z
                                         end;
                                  printed := outputs s |}
                      | None => None
                      end
                | None => None
                end
          | None => None
          end
      | None => None
      end
  end.

(** One printed value with [-r]; compound values are left out. *)
Definition jq_show (v : json) : option string :=
  match v with
  | JString s => Some s
  | JNumber n => Some n
  | JBool true => Some "true"
  | JBool false => Some "false"
  | JNull => Some "null"
  | _ => None
  end.

Fixpoint jq_stdout (vs : list json) : option string :=
  match vs with
  | [] => Some ""
  | v :: vs' =>
      match jq_show v, jq_stdout vs' with
      | Some line, Some rest => Some (line +:+ String "010" rest)
      | _, _ => None
      end
  end.

(** The filter that the text of [typecheck_q] denotes; that [jq_parse]
    reads it so is [typecheck_q_parses]. *)
Definition post_filter : jq_filter :=
  FPipe FDot
    (FAs FType "rt"
       (FIf (FOr (FEq (FVar "rt") (FLit (JString "string")))
                 (FEq (FVar "rt") (FLit (JString "number"))))
            FDot
            (FError (FVar "rt")))).

(** The process that [Command_run] starts is jq reading [doc] from [data]:
    a non-zero exit status comes back as [CalledProcessError] with that
    status, and on exit status 0 the standard output decodes to what jq
    printed. Nothing is said of runs outside the model. *)
Definition runs_jq (env : Env) (h : list event) (argv : list string)
    (data : bytes) (doc : json) : Prop :=
  match jq_main argv doc with
  | Some run =>
      if (exit_code run =? 0)%Z then
        match jq_stdout (printed run) with
        | Some text =>
            exists out err,
              Command_run env h argv data = inr (out, err)
              /\ bytes_decode env out = Some text
        | None => True
        end
      else
        Command_run env h argv data
        = inl (CalledProcessError (exit_code run) argv)
  | None => True
  end.

(** ** JSON Schema on JSON values *)

(** [type] of JSON Schema, for the type names that jq's [type] shares with
    it (every one but ["integer"]). *)
Definition json_has_type (ty : string) (v : json) : bool :=
  String.eqb ty (jq_type v).

Definition has_keys_json (cfg : gmap string json) (keys : list string)
    : bool :=
  forallb (fun k => bool_decide (is_Some (cfg !! k))) keys.

Definition property_ok_json (cfg : gmap string json)
    (p : string * (string * option string)) : bool :=
  match cfg !! fst p with
  | Some v => json_has_type (fst (snd p)) v
  | None => true
  end.

(** Validation of a configuration as it is read from the manifest, where
    a value may be any JSON value. *)
Definition validates_json (s : object_schema) (cfg : gmap string json)
    : bool :=
  forallb (property_ok_json cfg) (properties s)
  && has_keys_json cfg (required s)
  && existsb (has_keys_json cfg) (anyOf s).

(** The string a JSON value is, when it is one: what Python's [str]-typed
    code receives from a configuration entry. *)
Definition json_str (v : json) : option string :=
  match v with
  | JString s => Some s
  | _ => None
  end.

(** [cd] is the configuration [cfg] as the checker reads it: on every
    property the schema declares, [cd] holds the string [cfg] holds there,
    and nothing where [cfg] holds nothing or a value that is no string. *)
Definition reads_as (s : object_schema) (cfg : gmap string json)
    (cd : gmap string string) : bool :=
  forallb (fun k => bool_decide (cd !! k = cfg !! k ≫= json_str))
          (map fst (properties s)).

(** ** Notions used in the statements *)

(** The options one variable contributes to the jq command line. *)
Definition arg_option (kv : string * string) : list string :=
  ["--arg"; fst kv; snd kv].

(** The outcome of [query_json] as a function of the process's answer. *)
Definition query_json_outcome (env : Env) (answer : pyexn + (bytes * bytes))
    : pyexn + string :=
  match answer with
  | inl e =>
      inl (if is_CalledProcessError e
           then CheckerQueryError (Some "Error running jq") e else e)
  | inr out =>
      match bytes_decode env (fst out) with
      | Some s => inr (strip s)
      | None => inl UnicodeDecodeError
      end
  end.

(** The plan entries whose query is run. *)
Definition evaluated (plan : list (string * option string))
    : list (string * option string) :=
  List.filter (fun entry => negb (falsy (snd entry))) plan.

(** The query texts handed to jq by the calls of a history. *)
Definition queries_run (evs : list event) : list string :=
  flat_map (fun ev =>
              match ev with
              | EvRun argv _ => [List.last argv ""]
              | _ => []
              end) evs.

(** The skip rule as the specification words it: the key of an entry with
    an absent or empty query is never a key of the mapping produced. *)
Definition skipped_key_never_appears : Prop :=
  forall env data plan h m h' k q,
    query_sequence env data plan h = (inr m, h') ->
    In (k, q) plan -> falsy q = true ->
    dict_get m k = None.

(** The type restriction as the specification words it: whatever the
    query text, a run of the command that exits with status 0 printed
    strings and numbers only. *)
Definition post_filter_is_mandatory : Prop :=
  forall query variables doc run,
    jq_main (jq_cmd query variables) doc = Some run ->
    exit_code run = 0%Z ->
    List.forallb is_scalar (printed run) = true.

(** The plain flow as the specification words it: whenever the plan
    resolves, the mapping's version and url are handed off. *)
Definition plain_flow_always_hands_off : Prop :=
  forall env json_data d h vq uq results h1,
    data_checker_data d !! "version-query" = Some vq ->
    data_checker_data d !! "url-query" = Some uq ->
    query_sequence env json_data
      [("tag", data_checker_data d !! "tag-query");
       ("commit", data_checker_data d !! "commit-query");
       ("version", Some vq); ("url", Some uq)] h = (inr results, h1) ->
    exists v u,
      dict_get results "version" = Some v
      /\ dict_get results "url" = Some u
      /\ snd (_check_data env json_data d h)
         = h1 ++ [EvUpdateVersion d v u false].

(** The git flow as the specification words it: whenever the plan
    resolves without a commit, [fetch_remote] is called exactly once. *)
Definition git_flow_always_resolves_commit : Prop :=
  forall env json_data r h tq results h1,
    repo_checker_data r !! "tag-query" = Some tq ->
    query_sequence env json_data
      [("tag", Some tq);
       ("commit", repo_checker_data r !! "commit-query");
       ("version", repo_checker_data r !! "version-query");
       ("timestamp", repo_checker_data r !! "timestamp-query")] h
    = (inr results, h1) ->
    dict_get results "commit" = None ->
    length (List.filter is_EvFetchRemote
              (snd (_check_git env json_data r h)))
    = length (List.filter is_EvFetchRemote h) + 1.

(** No whitespace at the front of a list of characters. *)
Definition starts_clean (l : list ascii) : bool :=
  match l with
  | [] => true
  | c :: _ => negb (isspace c)
  end.

(** No whitespace at either end of a string. *)
Definition stripped (s : string) : bool :=
  starts_clean (list_ascii_of_string s)
  && starts_clean (rev (list_ascii_of_string s)).

(** Keys in the order in which they first occur. *)
Definition add_key (keys : list string) (k : string) : list string :=
  if existsb (String.eqb k) keys then keys else keys ++ [k].

Definition key_order (ks : list string) : list string :=
  fold_left add_key ks [].

(** A jq call whose standard input is [data]. *)
Definition run_on (data : bytes) (ev : event) : Prop :=
  exists argv, ev = EvRun argv data.

(** What [_check_data] can add to the history after its jq calls. *)
Definition plain_tail (d : ExternalData) (tail : list event) : Prop :=
  tail = []
  \/ exists v u, tail = [EvUpdateVersion d v u false].

(** A record as [_check_git] builds it from the current reference. *)
Definition built_from (r : ExternalGitRepo) (ref : ExternalGitRef) : Prop :=
  url ref = url (current_version r) /\ branch ref = None.

(** What [_check_git] can add to the history after its jq calls. *)
Definition git_tail (r : ExternalGitRepo) (tail : list event) : Prop :=
  tail = []
  \/ (exists ref, built_from r ref /\ commit ref = None
                  /\ tail = [EvFetchRemote ref])
  \/ (exists ref resolved,
        built_from r ref /\ commit ref = None
        /\ tail = [EvFetchRemote ref; EvSetNewVersion r resolved])
  \/ (exists ref, built_from r ref /\ commit ref <> None
                  /\ tail = [EvSetNewVersion r ref]).

(** ** A small concrete environment

    A jq stand-in that knows a handful of queries on one document, used to
    run the definitions on concrete inputs. *)
Module Demo.

Definition quoted (s : string) : string := dq +:+ s +:+ dq.

(** [{"v":"1.2.3","u":"https://x/1.2.3.tgz","t":"v2.0","c":"abcd1234",
      "d":"2023-05-01T00:00:00Z","ok":true}] *)
Definition document : bytes :=
  list_byte_of_string
    ("{" +:+ quoted "v" +:+ ":" +:+ quoted "1.2.3" +:+ ","
     +:+ quoted "u" +:+ ":" +:+ quoted "https://x/1.2.3.tgz" +:+ ","
     +:+ quoted "t" +:+ ":" +:+ quoted "v2.0" +:+ ","
     +:+ quoted "c" +:+ ":" +:+ quoted "abcd1234" +:+ ","
     +:+ quoted "d" +:+ ":" +:+ quoted "2023-05-01T00:00:00Z" +:+ ","
     +:+ quoted "ok" +:+ ":true}").

Definition line (s : string) : bytes :=
  list_byte_of_string (s +:+ String "010"%char "").

(** The value bound by [--arg name value] on a command line. *)
Fixpoint arg_value (argv : list string) (name : string) : option string :=
  match argv with
  | a :: (n :: v :: _) as rest =>
      if String.eqb a "--arg" && String.eqb n name then Some v
      else arg_value rest name
  | _ => None
  end.

Definition jq (argv : list string) (input : bytes)
    : pyexn + (bytes * bytes) :=
  let q := List.last argv "" in
  if String.eqb q (effective_query ".v") then inr (line "1.2.3", [])
  else if String.eqb q (effective_query ".u")
    then inr (line "https://x/1.2.3.tgz", [])
  else if String.eqb q (effective_query ".t") then inr (line "v2.0", [])
  else if String.eqb q (effective_query ".c") then inr (line "abcd1234", [])
  else if String.eqb q (effective_query ".d")
    then inr (line "2023-05-01T00:00:00Z", [])
  else if String.eqb q (effective_query ".bad") then inr (line "not-a-date", [])
  else if String.eqb q (effective_query "$version") then
    match arg_value argv "version" with
    | Some v => inr (line v, [])
    | None => inl (CalledProcessError 3 argv)
    end
  else if String.eqb q (effective_query ".ok")
    then inl (CalledProcessError 5 argv)
  else inl (CalledProcessError 1 argv).

Definition ascii_decode (b : bytes) : option string :=
  if forallb (fun x => (Byte.to_nat x <? 128)%nat) b
  then Some (string_of_list_byte b) else None.

Definition may_day : datetime :=
  {| year := 2023; month := 5; day := 1; hour := 0; minute := 0;
     second := 0; microsecond := 0; utcoffset := Some 0%Z |}.

Definition iso (s : string) : string + datetime :=
  if String.eqb s "2023-05-01T00:00:00+00:00" then inr may_day
  else inl ("Invalid isoformat string: " +:+ s).

Definition resolved (ref : ExternalGitRef) : ExternalGitRef :=
  {| url := url ref; commit := Some "0123abcd"; tag := tag ref;
     branch := branch ref; version := version ref;
     timestamp := timestamp ref |}.

Definition env (online : bool) : Env := {|
  should_check := fun ed =>
    bool_decide (checker_data ed !! "type" = Some "json");
  NETWORK_ERRORS := fun e =>
    match e with OtherError cls => String.eqb cls "ClientError" | _ => false end;
  session_get := fun _ _ =>
    if online then inr document else inl (OtherError "ClientError");
  Command_run := fun _ => jq;
  bytes_decode := ascii_decode;
  fromisoformat := iso;
  _update_version := fun _ _ _ _ _ => inr tt;
  fetch_remote := fun _ ref => inr (resolved ref);
  set_new_version := fun _ _ _ => inr tt
|}.

Definition plain (cd : list (string * string)) : ExternalData :=
  {| data_filename := "app.tar.gz";
     data_checker_data := list_to_map (("type", "json") :: cd) |}.

(** A record that belongs to another checker. *)
Definition html_record : ExternalData :=
  {| data_filename := "app.tar.gz";
     data_checker_data := {["type" := "html"]} |}.

Definition current : ExternalGitRef :=
  {| url := "https://git.example/app.git"; commit := Some "ffff0000";
     tag := "v1.0"; branch := None; version := Some "1.0";
     timestamp := None |}.

Definition repo (cd : list (string * string)) : ExternalGitRepo :=
  {| repo_filename := "app.git";
     repo_checker_data := list_to_map (("type", "json") :: cd);
     current_version := current |}.

(** [document] as a JSON value. *)
Definition doc : json :=
  JObject [("v", JString "1.2.3"); ("u", JString "https://x/1.2.3.tgz");
           ("t", JString "v2.0"); ("c", JString "abcd1234");
           ("d", JString "2023-05-01T00:00:00Z"); ("ok", JBool true)].

(** The answer of a process that is jq reading [doc]. *)
Definition answer_of_jq (argv : list string) : pyexn + (bytes * bytes) :=
  match jq_main argv doc with
  | Some run =>
      if (exit_code run =? 0)%Z then
        match jq_stdout (printed run) with
        | Some text => inr (list_byte_of_string text, [])
        | None => inl (OtherError "NotModelled")
        end
      else inl (CalledProcessError (exit_code run) argv)
  | None => inl (OtherError "NotModelled")
  end.

(** [env true] with the stand-in replaced by the model of jq. *)
Definition jq_env : Env := {|
  should_check := should_check (env true);
  NETWORK_ERRORS := NETWORK_ERRORS (env true);
  session_get := session_get (env true);
  Command_run := fun _ argv _ => answer_of_jq argv;
  bytes_decode := ascii_decode;
  fromisoformat := iso;
  _update_version := _update_version (env true);
  fetch_remote := fetch_remote (env true);
  set_new_version := set_new_version (env true)
|}.

(** An environment in which the transport and the process fail in ways
    their callers do not catch, and jq prints bytes that are not text. *)
Definition faulty : Env := {|
  should_check := fun ed =>
    bool_decide (checker_data ed !! "type" = Some "json");
  NETWORK_ERRORS := fun e =>
    match e with OtherError cls => String.eqb cls "ClientError" | _ => false end;
  session_get := fun _ _ => inl (OtherError "CancelledError");
  Command_run := fun _ argv _ =>
    if String.eqb (List.last argv "") (effective_query ".raw")
    then inr ([Byte.xff], [])
    else inl (OtherError "FileNotFoundError");
  bytes_decode := ascii_decode;
  fromisoformat := iso;
  _update_version := fun _ _ _ _ _ => inr tt;
  fetch_remote := fun _ ref => inr (resolved ref);
  set_new_version := fun _ _ _ => inr tt
|}.

End Demo.


(** * Properties *)

(** ** The monad *)

Lemma bind_ok {A B : Type} (m : M A) (k : A -> M B) h a h' :
  m h = (inr a, h') -> bind m k h = k a h'.
Proof. intros Hm. unfold bind. now rewrite Hm. Qed.

Lemma bind_raises {A B : Type} (m : M A) (k : A -> M B) h e h' :
  m h = (inl e, h') -> bind m k h = (inl e, h').
Proof. intros Hm. unfold bind. now rewrite Hm. Qed.

Lemma bind_lift_ok {A B : Type} (r : pyexn + A) (k : A -> M B) h a :
  r = inr a -> bind (lift r) k h = k a h.
Proof. intros ->. reflexivity. Qed.

Lemma bind_assoc {A B C : Type} (m : M A) (f : A -> M B) (g : B -> M C) h :
  bind (bind m f) g h = bind m (fun x => bind (f x) g) h.
Proof. unfold bind. now destruct (m h) as [[e|a] h']. Qed.

Lemma bind_ext {A B : Type} (m : M A) (f g : A -> M B) h :
  (forall a h', f a h' = g a h') -> bind m f h = bind m g h.
Proof. intros Hfg. unfold bind. destruct (m h) as [[e|a] h']; auto. Qed.

(** Step over a lookup that succeeds with [v], by the equation [H]. *)
Ltac lookup_ok v H :=
  rewrite (bind_lift_ok _ _ _ v)
    by (unfold config_item, dict_item; simpl; now rewrite H).

(** ** Dictionaries *)

Lemma dict_get_set_eq d k v : dict_get (dict_set d k v) k = Some v.
Proof.
  induction d as [|[k' v'] d IH]; simpl.
  - now rewrite String.eqb_refl.
  - destruct (String.eqb k' k) eqn:E; simpl; rewrite E; auto.
Qed.

Lemma dict_get_set_ne d k k' v :
  k <> k' -> dict_get (dict_set d k v) k' = dict_get d k'.
Proof.
  intros Hne. induction d as [|[k0 v0] d IH]; simpl.
  - apply String.eqb_neq in Hne. now rewrite Hne.
  - destruct (String.eqb k0 k) eqn:E; simpl.
    + apply String.eqb_eq in E. subst k0.
      apply String.eqb_neq in Hne. now rewrite Hne.
    + now rewrite IH.
Qed.

Lemma dict_get_set d k k' v :
  dict_get (dict_set d k v) k' =
  if String.eqb k k' then Some v else dict_get d k'.
Proof.
  destruct (String.eqb k k') eqn:E.
  - apply String.eqb_eq in E. subst. apply dict_get_set_eq.
  - apply String.eqb_neq in E. now apply dict_get_set_ne.
Qed.

Lemma dict_get_In d k v : dict_get d k = Some v -> In (k, v) d.
Proof.
  induction d as [|[k' v'] d IH]; simpl; [discriminate|].
  destruct (String.eqb k' k) eqn:E.
  - apply String.eqb_eq in E. intros [= ->]. subst. now left.
  - intros H. right. auto.
Qed.

Lemma dict_set_keys d k v :
  map fst (dict_set d k v) =
  match dict_get d k with
  | Some _ => map fst d
  | None => map fst d ++ [k]
  end.
Proof.
  induction d as [|[k' v'] d IH]; simpl; [reflexivity|].
  destruct (String.eqb k' k) eqn:E; simpl; [reflexivity|].
  rewrite IH. now destruct (dict_get d k).
Qed.

Lemma dict_get_None_keys d k : dict_get d k = None <-> ~ In k (map fst d).
Proof.
  induction d as [|[k' v'] d IH]; simpl; [tauto|].
  destruct (String.eqb k' k) eqn:E.
  - apply String.eqb_eq in E. subst. split; [discriminate|tauto].
  - apply String.eqb_neq in E. rewrite IH. tauto.
Qed.

(** Writing into a dict keeps its keys pairwise distinct. *)
Lemma dict_set_NoDup d k v :
  List.NoDup (map fst d) -> List.NoDup (map fst (dict_set d k v)).
Proof.
  intros Hd. rewrite dict_set_keys.
  destruct (dict_get d k) eqn:E; [assumption|].
  apply dict_get_None_keys in E.
  apply List.NoDup_app; repeat split; auto.
  - constructor; [simpl; tauto | constructor].
  - intros x Hx [<-|[]]. tauto.
Qed.

(** ** The jq command line *)

Lemma var_args_fold (vs : dict) (acc : list string) :
  fold_left (fun var_args '(var_name, var_value) =>
               var_args ++ ["--arg"; var_name; var_value]) vs acc
  = acc ++ flat_map arg_option vs.
Proof.
  revert acc. induction vs as [|[n v] vs IH]; intros acc; simpl.
  - now rewrite List.app_nil_r.
  - rewrite IH. now rewrite <- List.app_assoc.
Qed.

Lemma var_args_of_Some vs : var_args_of (Some vs) = flat_map arg_option vs.
Proof. unfold var_args_of. now rewrite var_args_fold. Qed.

Lemma flat_map_arg_option_In (vs : dict) k v :
  In (k, v) vs ->
  exists before after,
    flat_map arg_option vs = before ++ ["--arg"; k; v] ++ after.
Proof.
  induction vs as [|kv vs IH]; simpl; [tauto|].
  intros [->|Hin].
  - exists [], (flat_map arg_option vs). reflexivity.
  - destruct (IH Hin) as (b & a & ->).
    exists (arg_option kv ++ b), a. now rewrite <- List.app_assoc.
Qed.

(** ** query_json, step by step *)

Lemma query_json_run env query data variables h :
  query_json env query data variables h =
  (query_json_outcome env (Command_run env h (jq_cmd query variables) data),
   h ++ [EvRun (jq_cmd query variables) data]).
Proof.
  unfold query_json, bind, try_reraise, call, query_json_outcome.
  destruct (Command_run env h (jq_cmd query variables) data) as [e|out];
    [reflexivity|].
  cbn. now destruct (bytes_decode env (fst out)).
Qed.

(** ** query_sequence *)

Lemma query_sequence_from_app env data pre post : forall results h,
  query_sequence_from env results data (pre ++ post) h =
  bind (query_sequence_from env results data pre)
       (fun m => query_sequence_from env m data post) h.
Proof.
  induction pre as [|[k q] pre IH]; intros results h; simpl.
  - reflexivity.
  - destruct (falsy q); [apply IH|].
    rewrite bind_assoc. apply bind_ext. intros r h'. apply IH.
Qed.

Lemma query_sequence_from_skip env data results k q post h :
  falsy q = true ->
  query_sequence_from env results data ((k, q) :: post) h =
  query_sequence_from env results data post h.
Proof. intros Hq. simpl. now rewrite Hq. Qed.

Lemma query_sequence_from_eval env data results k q post h :
  falsy (Some q) = false ->
  query_sequence_from env results data ((k, Some q) :: post) h =
  bind (query_json env q data (Some results))
       (fun r => query_sequence_from env (dict_set results k r) data post) h.
Proof. intros Hq. simpl in *. now rewrite Hq. Qed.

Lemma jq_cmd_last query variables :
  List.last (jq_cmd query variables) "" = effective_query query.
Proof.
  unfold jq_cmd.
  replace (["jq"] ++ var_args_of variables ++ ["-r"; "-e"; effective_query query])
    with ((["jq"] ++ var_args_of variables ++ ["-r"; "-e"])
            ++ [effective_query query])
    by (rewrite <- !List.app_assoc; reflexivity).
  apply List.last_last.
Qed.

Lemma queries_run_cons argv input evs :
  queries_run (EvRun argv input :: evs)
  = List.last argv "" :: queries_run evs.
Proof. reflexivity. Qed.

Lemma queries_run_app evs evs' :
  queries_run (evs ++ evs') = queries_run evs ++ queries_run evs'.
Proof. apply List.flat_map_app. Qed.

(** A run of the resolver only adds jq calls to the history: at most one
    per evaluated entry, and on success exactly the evaluated entries'
    queries, in plan order. *)
Lemma query_sequence_from_events env data plan : forall results h r h',
  query_sequence_from env results data plan h = (r, h') ->
  exists evs,
    h' = h ++ evs
    /\ List.forallb is_EvRun evs = true
    /\ length evs <= length (evaluated plan)
    /\ (forall m, r = inr m ->
          queries_run evs =
          map (fun entry => effective_query (default "" (snd entry)))
              (evaluated plan)).
Proof.
  induction plan as [|[k q] plan IH]; intros results h r h'; simpl.
  - intros [= <- <-]. exists []. rewrite List.app_nil_r. simpl. auto.
  - destruct (falsy q) eqn:Hq; simpl; [apply IH|].
    unfold bind. rewrite query_json_run.
    destruct (query_json_outcome env _) as [e|s].
    + intros [= <- <-]. eexists. split; [reflexivity|].
      simpl. repeat split; [lia|discriminate].
    + intros Hrest. apply IH in Hrest as (evs & -> & Hall & Hlen & Hq').
      exists (EvRun (jq_cmd (default "" q) (Some results)) data :: evs).
      split; [now rewrite <- List.app_assoc|].
      split; [exact Hall|]. split; [simpl; lia|].
      intros m Hm. rewrite queries_run_cons, jq_cmd_last.
      simpl. f_equal. now apply (Hq' m).
Qed.

(** The keys of the mapping produced are the keys it started from and the
    keys of the evaluated entries. *)
Lemma query_sequence_from_keys env data plan : forall results h m h',
  query_sequence_from env results data plan h = (inr m, h') ->
  forall k,
    is_Some (dict_get m k) <->
    is_Some (dict_get results k)
    \/ exists q, In (k, q) plan /\ falsy q = false.
Proof.
  induction plan as [|[k0 q0] plan IH]; intros results h m h'; simpl.
  - intros [= <- <-] k. split; [auto|]. intros [H|(q & [] & _)]. exact H.
  - destruct (falsy q0) eqn:Hq0.
    + intros Hrun k. rewrite (IH _ _ _ _ Hrun k). split.
      * intros [H|(q & Hin & Hq)]; [auto|]. right. exists q. auto.
      * intros [H|(q & [[= <- <-]|Hin] & Hq)]; [auto|congruence|].
        right. exists q. auto.
    + unfold bind.
      destruct (query_json env (default "" q0) data (Some results) h)
        as [[e|r] h1]; [discriminate|].
      intros Hrun k. rewrite (IH _ _ _ _ Hrun k), dict_get_set. split.
      * intros [H|(q & Hin & Hq)].
        -- destruct (String.eqb k0 k) eqn:E; [|auto].
           apply String.eqb_eq in E. subst k0. right. exists q0. auto.
        -- right. exists q. auto.
      * intros [H|(q & [[= <- <-]|Hin] & Hq)].
        -- left. destruct (String.eqb k0 k); [eauto|assumption].
        -- left. rewrite String.eqb_refl. eauto.
        -- right. exists q. auto.
Qed.

Lemma query_sequence_from_NoDup env data plan :
  forall (results : dict) h m h',
  List.NoDup (map fst results) ->
  query_sequence_from env results data plan h = (inr m, h') ->
  List.NoDup (map fst m).
Proof.
  induction plan as [|[k0 q0] plan IH]; intros results h m h' Hnd; simpl.
  - now intros [= <- <-].
  - destruct (falsy q0); [now apply IH|].
    unfold bind.
    destruct (query_json env (default "" q0) data (Some results) h)
      as [[e|r] h1]; [intros [=]|].
    intros Hrun. eapply IH; [|exact Hrun]. now apply dict_set_NoDup.
Qed.

Lemma is_Some_nil_dict k : ~ is_Some (dict_get [] k).
Proof. simpl. intros [x Hx]. discriminate. Qed.

(** ** The resolver *)

(** C1. Threading of results. When the resolver reaches an entry
    [(k, q)] with a non-empty query, the mapping [m] built from the
    entries before it is what [query_json] receives as variables, the
    string it returns is stored under [k], and the run goes on from
    there. The jq call carries one [--arg key value] per entry of [m];
    the keys of [m] are pairwise distinct and are exactly the keys of the
    earlier entries that were evaluated, so what a query sees is decided
    by its position in the plan. *)
Theorem query_sequence_threads_results
    env data pre k q post h m h1 :
  falsy (Some q) = false ->
  query_sequence env data pre h = (inr m, h1) ->
  query_sequence env data (pre ++ (k, Some q) :: post) h
    = bind (query_json env q data (Some m))
           (fun r => query_sequence_from env (dict_set m k r) data post) h1
  /\ snd (query_json env q data (Some m) h1)
     = h1 ++ [EvRun (["jq"] ++ flat_map arg_option m
                       ++ ["-r"; "-e"; effective_query q]) data]
  /\ List.NoDup (map fst m)
  /\ (forall k', is_Some (dict_get m k') <->
                 exists q', In (k', q') pre /\ falsy q' = false)
  /\ (forall k' v', dict_get m k' = Some v' ->
        exists before after,
          flat_map arg_option m = before ++ ["--arg"; k'; v'] ++ after)
  /\ (forall r k', dict_get (dict_set m k r) k'
                   = if String.eqb k k' then Some r else dict_get m k').
Proof.
  intros Hq Hpre. unfold query_sequence in *.
  repeat split.
  - rewrite query_sequence_from_app, (bind_ok _ _ _ _ _ Hpre).
    now apply query_sequence_from_eval.
  - rewrite query_json_run. simpl. unfold jq_cmd.
    now rewrite var_args_of_Some.
  - eapply query_sequence_from_NoDup; [|exact Hpre]. constructor.
  - intros H. apply (query_sequence_from_keys _ _ _ _ _ _ _ Hpre) in H.
    destruct H as [H|H]; [now apply is_Some_nil_dict in H|exact H].
  - intros H. apply (query_sequence_from_keys _ _ _ _ _ _ _ Hpre). now right.
  - intros k' v' Hget. apply flat_map_arg_option_In. now apply dict_get_In.
  - intros r k'. apply dict_get_set.
Qed.

Lemma query_sequence_threads_results_witness :
  falsy (Some "$version") = false
  /\ query_sequence (Demo.env true) Demo.document
       [("version", Some ".v"); ("tag", None)] []
     = (inr [("version", "1.2.3")],
        [EvRun (jq_cmd ".v" (Some [])) Demo.document])
  /\ fst (query_sequence (Demo.env true) Demo.document
            ([("version", Some ".v"); ("tag", None)]
               ++ ("url", Some "$version") :: []) [])
     = inr [("version", "1.2.3"); ("url", "1.2.3")].
Proof.
  split; [reflexivity|]. split; [reflexivity|].
  rewrite (proj1 (query_sequence_threads_results
                    (Demo.env true) Demo.document
                    [("version", Some ".v"); ("tag", None)]
                    "url" "$version" [] []
                    [("version", "1.2.3")]
                    [EvRun (jq_cmd ".v" (Some [])) Demo.document]
                    eq_refl eq_refl)).
  reflexivity.
Defined.

(** C2, as worded, fails on a plan that names a key twice: the entry
    [("version", None)] is skipped, yet ["version"] is a key of the
    mapping, put there by the entry before it. *)
Lemma skipped_key_may_appear :
  query_sequence (Demo.env true) Demo.document
    [("version", Some ".v"); ("version", None)] []
  = (inr [("version", "1.2.3")],
     [EvRun (jq_cmd ".v" (Some [])) Demo.document])
  /\ ~ skipped_key_never_appears.
Proof.
  split; [reflexivity|].
  intros H.
  specialize (H (Demo.env true) Demo.document
                [("version", Some ".v"); ("version", None)] []
                [("version", "1.2.3")]
                [EvRun (jq_cmd ".v" (Some [])) Demo.document]
                "version" None eq_refl).
  simpl in H. discriminate H; auto.
Qed.

(** C2, amended. An entry whose query is absent or empty is inert: the
    resolver returns the same mapping or the same failure, after the same
    jq calls, as on the plan without that entry. On success the jq calls
    are those of the evaluated entries, in order, and the entry's key is
    in the mapping exactly when another entry with that key has a
    non-empty query. *)
Theorem skipped_entry_is_inert env data pre k q post h :
  falsy q = true ->
  query_sequence env data (pre ++ (k, q) :: post) h
    = query_sequence env data (pre ++ post) h
  /\ forall m h',
       query_sequence env data (pre ++ (k, q) :: post) h = (inr m, h') ->
       (is_Some (dict_get m k) <->
        exists q', In (k, q') (pre ++ post) /\ falsy q' = false)
       /\ exists evs,
            h' = h ++ evs
            /\ List.forallb is_EvRun evs = true
            /\ queries_run evs
               = map (fun entry => effective_query (default "" (snd entry)))
                     (evaluated (pre ++ post)).
Proof.
  intros Hq.
  assert (Hsame : query_sequence env data (pre ++ (k, q) :: post) h
                  = query_sequence env data (pre ++ post) h).
  { unfold query_sequence. rewrite !query_sequence_from_app.
    apply bind_ext. intros m h'. now apply query_sequence_from_skip. }
  split; [exact Hsame|].
  intros m h' Hrun. rewrite Hsame in Hrun. unfold query_sequence in Hrun.
  split.
  - rewrite (query_sequence_from_keys _ _ _ _ _ _ _ Hrun k). split.
    + intros [H|H]; [now apply is_Some_nil_dict in H|exact H].
    + now right.
  - destruct (query_sequence_from_events _ _ _ _ _ _ _ Hrun)
      as (evs & -> & Hall & _ & Hqs).
    exists evs. repeat split; auto. now apply (Hqs m).
Qed.

Lemma skipped_entry_is_inert_witness :
  falsy (Some "") = true
  /\ query_sequence (Demo.env true) Demo.document
       ([("version", Some ".v")] ++ ("tag", Some "")
          :: [("url", Some "$version")]) []
     = query_sequence (Demo.env true) Demo.document
         ([("version", Some ".v")] ++ [("url", Some "$version")]) [].
Proof.
  split; [reflexivity|].
  exact (proj1 (skipped_entry_is_inert
                  (Demo.env true) Demo.document
                  [("version", Some ".v")] "tag" (Some "")
                  [("url", Some "$version")] [] eq_refl)).
Defined.

(** C3. Abort on failure. If the entries before [(k, q)] resolve to [m]
    and [query_json] raises [e] on [q], the resolver raises [e] itself:
    no mapping is returned, the history ends with the failing jq call,
    and the entries after [(k, q)] play no part. *)
Theorem query_sequence_aborts_on_failure
    env data pre k q post h m h1 e h2 :
  falsy (Some q) = false ->
  query_sequence env data pre h = (inr m, h1) ->
  query_json env q data (Some m) h1 = (inl e, h2) ->
  query_sequence env data (pre ++ (k, Some q) :: post) h = (inl e, h2)
  /\ h2 = h1 ++ [EvRun (jq_cmd q (Some m)) data]
  /\ query_sequence env data (pre ++ (k, Some q) :: post) h
     = query_sequence env data (pre ++ [(k, Some q)]) h.
Proof.
  intros Hq Hpre Hfail.
  assert (Hany : forall rest,
            query_sequence env data (pre ++ (k, Some q) :: rest) h
            = (inl e, h2)).
  { intros rest. unfold query_sequence in *.
    rewrite query_sequence_from_app, (bind_ok _ _ _ _ _ Hpre).
    rewrite (query_sequence_from_eval _ _ _ _ _ _ _ Hq).
    now apply bind_raises. }
  repeat split.
  - apply Hany.
  - rewrite query_json_run in Hfail. now inversion Hfail.
  - now rewrite !Hany.
Qed.

Lemma query_sequence_aborts_on_failure_witness :
  falsy (Some ".ok") = false
  /\ query_sequence (Demo.env true) Demo.document [("version", Some ".v")] []
     = (inr [("version", "1.2.3")],
        [EvRun (jq_cmd ".v" (Some [])) Demo.document])
  /\ query_json (Demo.env true) ".ok" Demo.document
       (Some [("version", "1.2.3")])
       [EvRun (jq_cmd ".v" (Some [])) Demo.document]
     = (inl (CheckerQueryError (Some "Error running jq")
               (CalledProcessError 5
                  (jq_cmd ".ok" (Some [("version", "1.2.3")])))),
        [EvRun (jq_cmd ".v" (Some [])) Demo.document;
         EvRun (jq_cmd ".ok" (Some [("version", "1.2.3")])) Demo.document])
  /\ fst (query_sequence (Demo.env true) Demo.document
            ([("version", Some ".v")] ++ ("flag", Some ".ok")
               :: [("url", Some ".u")]) [])
     = inl (CheckerQueryError (Some "Error running jq")
              (CalledProcessError 5
                 (jq_cmd ".ok" (Some [("version", "1.2.3")])))).
Proof.
  split; [reflexivity|]. split; [reflexivity|]. split; [reflexivity|].
  rewrite (proj1 (query_sequence_aborts_on_failure
                    (Demo.env true) Demo.document
                    [("version", Some ".v")] "flag" ".ok"
                    [("url", Some ".u")] []
                    [("version", "1.2.3")]
                    [EvRun (jq_cmd ".v" (Some [])) Demo.document]
                    _ _ eq_refl eq_refl eq_refl)).
  reflexivity.
Defined.

(** ** The timestamp normaliser *)

Lemma list_ascii_of_string_app s t :
  list_ascii_of_string (s +:+ t)
  = list_ascii_of_string s ++ list_ascii_of_string t.
Proof. induction s as [|c s IH]; simpl; [reflexivity|now rewrite IH]. Qed.

Lemma string_of_rev_rev s :
  string_of_list_ascii (rev (rev (list_ascii_of_string s))) = s.
Proof. rewrite List.rev_involutive. apply string_of_list_ascii_of_string. Qed.

Lemma sub_Z_end_Z x : sub_Z_end (x +:+ "Z") = x +:+ "+00:00".
Proof.
  unfold sub_Z_end.
  rewrite list_ascii_of_string_app, List.rev_app_distr. simpl.
  now rewrite string_of_rev_rev.
Qed.

Lemma sub_Z_end_offset x : sub_Z_end (x +:+ "+00:00") = x +:+ "+00:00".
Proof.
  unfold sub_Z_end.
  rewrite list_ascii_of_string_app, List.rev_app_distr. reflexivity.
Qed.

(** C6. The timestamp normaliser. [None] goes to [None]. A final [Z] is
    replaced by [+00:00] before parsing, so [x ++ "Z"] and
    [x ++ "+00:00"] have the same outcome for every [x]. For a present
    input the outcome is the parsed datetime, or [CheckerQueryError]
    caused by the parser's [ValueError]; nothing else is raised. *)
Theorem parse_timestamp_normalises env :
  parse_timestamp env None = inr None
  /\ (forall x, sub_Z_end (x +:+ "Z") = x +:+ "+00:00")
  /\ (forall x, parse_timestamp env (Some (x +:+ "Z"))
                = parse_timestamp env (Some (x +:+ "+00:00")))
  /\ parse_timestamp env (Some "2023-05-01T00:00:00Z")
     = parse_timestamp env (Some "2023-05-01T00:00:00+00:00")
  /\ (forall s,
        parse_timestamp env (Some s) =
        match fromisoformat env (sub_Z_end s) with
        | inr d => inr (Some d)
        | inl msg =>
            inl (CheckerQueryError (Some "Failed to parse timestamp")
                                   (ValueError msg))
        end)
  /\ sub_Z_end "not-a-date" = "not-a-date"
  /\ (forall msg,
        fromisoformat env "not-a-date" = inl msg ->
        parse_timestamp env (Some "not-a-date")
        = inl (CheckerQueryError (Some "Failed to parse timestamp")
                                 (ValueError msg))).
Proof.
  assert (Hz : forall x, parse_timestamp env (Some (x +:+ "Z"))
                         = parse_timestamp env (Some (x +:+ "+00:00"))).
  { intros x. unfold parse_timestamp.
    now rewrite sub_Z_end_Z, sub_Z_end_offset. }
  split; [reflexivity|]. split; [apply sub_Z_end_Z|]. split; [exact Hz|].
  split; [exact (Hz "2023-05-01T00:00:00")|].
  split; [reflexivity|]. split; [reflexivity|].
  intros msg Hmsg. unfold parse_timestamp.
  change (sub_Z_end "not-a-date") with "not-a-date". now rewrite Hmsg.
Qed.

Lemma parse_timestamp_normalises_witness :
  fromisoformat (Demo.env true) "not-a-date"
    = inl "Invalid isoformat string: not-a-date"
  /\ parse_timestamp (Demo.env true) (Some "not-a-date")
     = inl (CheckerQueryError (Some "Failed to parse timestamp")
              (ValueError "Invalid isoformat string: not-a-date"))
  /\ parse_timestamp (Demo.env true) (Some "2023-05-01T00:00:00Z")
     = inr (Some Demo.may_day).
Proof.
  split; [reflexivity|]. split.
  - exact (proj2 (proj2 (proj2 (proj2 (proj2 (proj2
             (parse_timestamp_normalises (Demo.env true)))))))
             "Invalid isoformat string: not-a-date" eq_refl).
  - rewrite (proj1 (proj2 (proj2 (proj2
               (parse_timestamp_normalises (Demo.env true)))))).
    reflexivity.
Defined.

(** ** The orchestrator *)

(** C7. Fetch failure. For an eligible record with a [url], when the GET
    raises one of [NETWORK_ERRORS], [check] raises [CheckerQueryError]
    with that error as its cause; the GET is the only call made, so no
    query has been evaluated and no mapping built. *)
Theorem check_wraps_fetch_failure env ed h json_url e :
  should_check env ed = true ->
  checker_data ed !! "url" = Some json_url ->
  session_get env h json_url = inl e ->
  NETWORK_ERRORS env e = true ->
  check env ed h = (inl (CheckerQueryError None e), h ++ [EvGet json_url])
  /\ queries_run (snd (check env ed h)) = queries_run h
  /\ is_CheckerQueryError (CheckerQueryError None e) = true.
Proof.
  intros Hok Hurl Hget Hnet.
  assert (Hrun : check env ed h
                 = (inl (CheckerQueryError None e), h ++ [EvGet json_url])).
  { unfold check. rewrite Hok.
    rewrite (bind_ok _ _ _ tt h) by reflexivity.
    lookup_ok json_url Hurl.
    apply bind_raises. unfold try_reraise, call. now rewrite Hget, Hnet. }
  split; [exact Hrun|]. split; [|reflexivity].
  rewrite Hrun. simpl. rewrite queries_run_app. simpl.
  now rewrite List.app_nil_r.
Qed.

Lemma check_wraps_fetch_failure_witness :
  should_check (Demo.env false)
    (IsData (Demo.plain [("url", "https://x/v.json");
                         ("version-query", ".v"); ("url-query", ".u")]))
  = true
  /\ check (Demo.env false)
       (IsData (Demo.plain [("url", "https://x/v.json");
                            ("version-query", ".v"); ("url-query", ".u")]))
       []
     = (inl (CheckerQueryError None (OtherError "ClientError")),
        [EvGet "https://x/v.json"]).
Proof.
  split; [reflexivity|].
  exact (proj1 (check_wraps_fetch_failure
                  (Demo.env false)
                  (IsData (Demo.plain [("url", "https://x/v.json");
                                       ("version-query", ".v");
                                       ("url-query", ".u")]))
                  [] "https://x/v.json" (OtherError "ClientError")
                  eq_refl eq_refl eq_refl eq_refl)).
Defined.

(** C9. Eligibility. On a record that [should_check] rejects, [check]
    raises [AssertionError] before anything else happens: the history is
    unchanged, and the exception is not a [CheckerQueryError]. On an
    eligible record the assertion returns without touching the history
    and [check] is the rest of its body. *)
Theorem check_asserts_eligibility env ed h :
  (should_check env ed = false ->
   check env ed h = (inl AssertionError, h))
  /\ is_CheckerQueryError AssertionError = false
  /\ (should_check env ed = true ->
      py_assert (should_check env ed) h = (inr tt, h)
      /\ check env ed h
         = bind (lift (config_item (checker_data ed) "url"))
             (fun json_url =>
                bind (try_reraise
                        (call (EvGet json_url)
                              (fun h => session_get env h json_url))
                        (NETWORK_ERRORS env) (CheckerQueryError None))
                  (fun json_data =>
                     match ed with
                     | IsGitRepo r => _check_git env json_data r
                     | IsData d => _check_data env json_data d
                     end)) h).
Proof.
  split; [|split; [reflexivity|]].
  - intros Hno. unfold check. now rewrite Hno.
  - intros Hok. unfold check. rewrite Hok. split; reflexivity.
Qed.

Lemma check_asserts_eligibility_witness :
  should_check (Demo.env true) (IsData Demo.html_record) = false
  /\ check (Demo.env true) (IsData Demo.html_record) []
     = (inl AssertionError, [])
  /\ should_check (Demo.env true)
       (IsData (Demo.plain [("url", "https://x/v.json")])) = true
  /\ py_assert
       (should_check (Demo.env true)
          (IsData (Demo.plain [("url", "https://x/v.json")]))) []
     = (inr tt, []).
Proof.
  split; [reflexivity|]. split.
  - exact (proj1 (check_asserts_eligibility
                    (Demo.env true) (IsData Demo.html_record) [])
                 eq_refl).
  - split; [reflexivity|].
    exact (proj1 (proj2 (proj2 (check_asserts_eligibility
                                  (Demo.env true)
                                  (IsData (Demo.plain
                                     [("url", "https://x/v.json")]))
                                  [])) eq_refl)).
Defined.

(** C10. Missing mandatory keys in the plain flow. When [checker_data]
    has no ["version-query"] or no ["url-query"], [_check_data] raises
    [KeyError] on the first missing key while it builds the plan: the
    history is unchanged (no jq call, no handoff) and the exception is
    not a [CheckerQueryError]. Through [check] the only call made is the
    GET. The schema accepts such a configuration: one with just ["url"]
    and ["tag-query"] validates. *)
Theorem check_data_missing_query_key env json_data d h :
  data_checker_data d !! "version-query" = None
  \/ data_checker_data d !! "url-query" = None ->
  exists key,
    (key = "version-query" \/ key = "url-query")
    /\ data_checker_data d !! key = None
    /\ _check_data env json_data d h = (inl (KeyError key), h)
    /\ is_CheckerQueryError (KeyError key) = false
    /\ (forall h0 json_url,
          should_check env (IsData d) = true ->
          data_checker_data d !! "url" = Some json_url ->
          session_get env h0 json_url = inr json_data ->
          check env (IsData d) h0
          = (inl (KeyError key), h0 ++ [EvGet json_url]))
    /\ (forall u tq : string,
          validates CHECKER_DATA_SCHEMA
            (<["url" := u]> {["tag-query" := tq]}) = true
          /\ (<["url" := u]> {["tag-query" := tq]} : gmap string string)
               !! "version-query" = None
          /\ (<["url" := u]> {["tag-query" := tq]} : gmap string string)
               !! "url-query" = None).
Proof.
  intros Hmissing.
  assert (Hkey : exists key,
            (key = "version-query" \/ key = "url-query")
            /\ data_checker_data d !! key = None
            /\ forall h', _check_data env json_data d h'
                          = (inl (KeyError key), h')).
  { destruct (data_checker_data d !! "version-query") as [vq|] eqn:Hv.
    - destruct Hmissing as [Hm|Hm]; [discriminate|].
      exists "url-query". split; [now right|]. split; [exact Hm|].
      intros h'. unfold _check_data, config_item. now rewrite Hv, Hm.
    - exists "version-query". split; [now left|]. split; [exact Hv|].
      intros h'. unfold _check_data, config_item. now rewrite Hv. }
  destruct Hkey as (key & Hwhich & Hnone & Hraise).
  exists key. split; [exact Hwhich|]. split; [exact Hnone|].
  split; [apply Hraise|]. split; [reflexivity|]. split.
  - intros h0 json_url Hok Hurl Hget. unfold check. rewrite Hok.
    rewrite (bind_ok _ _ _ tt h0) by reflexivity.
    lookup_ok json_url Hurl.
    rewrite (bind_ok _ _ _ json_data (h0 ++ [EvGet json_url]))
      by (unfold try_reraise, call; now rewrite Hget).
    apply Hraise.
  - intros u tq. repeat split.
Qed.

Lemma check_data_missing_query_key_witness :
  data_checker_data
    (Demo.plain [("url", "https://x/v.json"); ("tag-query", ".t")])
    !! "version-query" = None
  /\ exists key,
       (key = "version-query" \/ key = "url-query")
       /\ check (Demo.env true)
            (IsData (Demo.plain [("url", "https://x/v.json");
                                 ("tag-query", ".t")])) []
          = (inl (KeyError key), [] ++ [EvGet "https://x/v.json"]).
Proof.
  split; [reflexivity|].
  destruct (check_data_missing_query_key
              (Demo.env true) Demo.document
              (Demo.plain [("url", "https://x/v.json"); ("tag-query", ".t")])
              [] (or_introl eq_refl))
    as (key & Hwhich & _ & _ & _ & Hcheck & _).
  exists key. split; [exact Hwhich|].
  apply Hcheck; reflexivity.
Defined.

(** ** The scenarios of the specification, run on the stand-in *)

(** Order matters: [$version] is bound only after the [version] entry. *)
Example scenario_order_dependence :
  fst (query_sequence (Demo.env true) Demo.document
         [("version", Some ".v"); ("url", Some "$version")] [])
  = inr [("version", "1.2.3"); ("url", "1.2.3")]
  /\ fst (query_sequence (Demo.env true) Demo.document
            [("url", Some "$version"); ("version", Some ".v")] [])
     = inl (CheckerQueryError (Some "Error running jq")
              (CalledProcessError 3 (jq_cmd "$version" (Some [])))).
Proof. split; reflexivity. Qed.

Example scenario_plain_flow :
  check (Demo.env true)
    (IsData (Demo.plain [("url", "https://x/v.json");
                         ("version-query", ".v"); ("url-query", ".u")])) []
  = (inr tt,
     [EvGet "https://x/v.json";
      EvRun (jq_cmd ".v" (Some [])) Demo.document;
      EvRun (jq_cmd ".u" (Some [("version", "1.2.3")])) Demo.document;
      EvUpdateVersion
        (Demo.plain [("url", "https://x/v.json");
                     ("version-query", ".v"); ("url-query", ".u")])
        "1.2.3" "https://x/1.2.3.tgz" false]).
Proof. reflexivity. Qed.

Example scenario_git_commit_present :
  let r := Demo.repo [("url", "https://x/v.json");
                      ("tag-query", ".t"); ("commit-query", ".c")] in
  check (Demo.env true) (IsGitRepo r) []
  = (inr tt,
     [EvGet "https://x/v.json";
      EvRun (jq_cmd ".t" (Some [])) Demo.document;
      EvRun (jq_cmd ".c" (Some [("tag", "v2.0")])) Demo.document;
      EvSetNewVersion r
        {| url := "https://git.example/app.git";
           commit := Some "abcd1234"; tag := "v2.0"; branch := None;
           version := None; timestamp := None |}]).
Proof. reflexivity. Qed.

Example scenario_git_commit_absent :
  let r := Demo.repo [("url", "https://x/v.json"); ("tag-query", ".t")] in
  let partial :=
    {| url := "https://git.example/app.git"; commit := None;
       tag := "v2.0"; branch := None; version := None;
       timestamp := None |} in
  check (Demo.env true) (IsGitRepo r) []
  = (inr tt,
     [EvGet "https://x/v.json";
      EvRun (jq_cmd ".t" (Some [])) Demo.document;
      EvFetchRemote partial;
      EvSetNewVersion r (Demo.resolved partial)]).
Proof. reflexivity. Qed.

Example scenario_fetch_failure :
  check (Demo.env false)
    (IsGitRepo (Demo.repo [("url", "https://x/v.json");
                           ("tag-query", ".t")])) []
  = (inl (CheckerQueryError None (OtherError "ClientError")),
     [EvGet "https://x/v.json"]).
Proof. reflexivity. Qed.

Example scenario_strip :
  strip (String "010"%char " 1.2.3 " +:+ String "010"%char "") = "1.2.3".
Proof. reflexivity. Qed.

(** * Further properties of the code *)

(** ** str.strip() *)

Lemma lstrip_chars_clean l : starts_clean (lstrip_chars l) = true.
Proof.
  induction l as [|c l IH]; simpl; [reflexivity|].
  destruct (isspace c) eqn:E; [exact IH|]. simpl. now rewrite E.
Qed.

Lemma lstrip_chars_fix l : starts_clean l = true -> lstrip_chars l = l.
Proof.
  destruct l as [|c l]; simpl; [reflexivity|]. now destruct (isspace c).
Qed.

Lemma lstrip_chars_split l :
  exists ws, l = ws ++ lstrip_chars l /\ List.forallb isspace ws = true.
Proof.
  induction l as [|c l (ws & Heq & Hws)]; simpl.
  - exists []. auto.
  - destruct (isspace c) eqn:E.
    + exists (c :: ws). simpl. rewrite E, Hws.
      split; [now f_equal|reflexivity].
    + exists []. auto.
Qed.

(** Stripping the right end leaves a clean left end clean. *)
Lemma rstrip_keeps_front l :
  starts_clean l = true -> starts_clean (rev (lstrip_chars (rev l))) = true.
Proof.
  intros Hl. destruct (lstrip_chars_split (rev l)) as (ws & Heq & _).
  apply (f_equal (@rev ascii)) in Heq.
  rewrite List.rev_involutive, List.rev_app_distr in Heq.
  destruct (rev (lstrip_chars (rev l))) as [|c t]; [reflexivity|].
  rewrite Heq in Hl. exact Hl.
Qed.

Lemma strip_is_stripped s : stripped (strip s) = true.
Proof.
  unfold stripped, strip. rewrite list_ascii_of_string_of_list_ascii.
  rewrite rstrip_keeps_front by apply lstrip_chars_clean.
  rewrite List.rev_involutive. now rewrite lstrip_chars_clean.
Qed.

Lemma stripped_strip_fix s : stripped s = true -> strip s = s.
Proof.
  unfold stripped, strip. intros H. apply andb_prop in H as [H1 H2].
  rewrite (lstrip_chars_fix _ H1), (lstrip_chars_fix _ H2).
  rewrite List.rev_involutive. apply string_of_list_ascii_of_string.
Qed.

(** ** The post-filter and jq *)

Lemma typecheck_q_parses : jq_parse typecheck_q = Some post_filter.
Proof. vm_compute. reflexivity. Qed.

Lemma post_filter_eval rho v :
  jq_eval post_filter rho v
  = Some (if is_scalar v then jq_emit v else jq_error (JString (jq_type v))).
Proof. destruct v; reflexivity. Qed.

Lemma post_filter_closed bound : jq_unbound bound post_filter = false.
Proof. reflexivity. Qed.

Lemma jq_each_post_scalars rho vs after :
  List.forallb is_scalar vs = true ->
  jq_each (jq_eval post_filter rho) vs after
  = Some {| outputs := vs; failure := after |}.
Proof.
  induction vs as [|v vs IH]; intros Hall; cbn [jq_each]; [reflexivity|].
  simpl in Hall. apply andb_prop in Hall as [Hv Hvs].
  rewrite post_filter_eval, Hv. cbn [failure outputs jq_emit].
  now rewrite (IH Hvs).
Qed.

Lemma jq_each_post_non_scalar rho vs after v :
  In v vs -> is_scalar v = false ->
  exists outs msg,
    jq_each (jq_eval post_filter rho) vs after
    = Some {| outputs := outs; failure := Some msg |}.
Proof.
  induction vs as [|v0 vs IH]; intros Hin Hv; [destruct Hin|].
  cbn [jq_each]. rewrite post_filter_eval.
  destruct (is_scalar v0) eqn:Hv0; cbn [failure outputs jq_emit jq_error].
  - destruct Hin as [->|Hin]; [congruence|].
    destruct (IH Hin Hv) as (outs & msg & ->).
    cbn [failure outputs]. now eexists _, msg.
  - now eexists _, _.
Qed.

Lemma jq_each_post_clean rho vs after s :
  jq_each (jq_eval post_filter rho) vs after = Some s ->
  failure s = None ->
  List.forallb is_scalar vs = true /\ after = None.
Proof.
  revert s. induction vs as [|v vs IH]; intros s; cbn [jq_each].
  - intros [= <-] Hnone. now split.
  - rewrite post_filter_eval.
    destruct (is_scalar v) eqn:Hv; cbn [failure outputs jq_emit jq_error].
    + destruct (jq_each (jq_eval post_filter rho) vs after) as [rest|] eqn:Hr;
        [|discriminate].
      intros [= <-] Hnone. cbn [failure] in Hnone.
      destruct (IH rest eq_refl Hnone) as [Hall ->]. simpl.
      now rewrite Hv, Hall.
    + intros [= <-]. discriminate.
Qed.

Lemma forallb_false_witness {A : Type} (p : A -> bool) l :
  List.forallb p l = false -> exists v, In v l /\ p v = false.
Proof.
  induction l as [|x l IH]; simpl; [discriminate|].
  destruct (p x) eqn:Hx; simpl.
  - intros H. destruct (IH H) as (v & Hin & Hv). eauto.
  - intros _. eauto.
Qed.

Lemma scalars_print (vs : list json) :
  List.forallb is_scalar vs = true -> exists text, jq_stdout vs = Some text.
Proof.
  induction vs as [|v vs IH]; intros Hall; [now exists ""|].
  simpl in Hall. apply andb_prop in Hall as [Hv Hvs].
  destruct (IH Hvs) as [rest Hrest]. simpl. rewrite Hrest.
  destruct v; try discriminate; eauto.
Qed.

Lemma scalars_exit_zero (vs : list json) :
  List.forallb is_scalar vs = true -> vs <> [] ->
  jq_exit_status {| outputs := vs; failure := None |} = 0%Z.
Proof.
  intros Hall Hne. unfold jq_exit_status. cbn [failure outputs].
  destruct (last vs) as [v|] eqn:Hlast.
  - assert (Hin : In v vs).
    { apply last_Some in Hlast as [front ->]. apply List.in_app_iff.
      right. now left. }
    rewrite List.forallb_forall in Hall. specialize (Hall v Hin).
    now destruct v as [| [] | | | |].
  - apply last_None in Hlast. contradiction.
Qed.

Lemma not_option_is_program text o :
  is_option text = false -> opt_program o = None ->
  jq_getopt [text] o
  = Some {| opt_named := opt_named o; opt_raw := opt_raw o;
            opt_exit := opt_exit o; opt_program := Some text |}.
Proof.
  intros Htext Hprog. unfold jq_getopt.
  destruct text as [|c text]; [now rewrite Hprog|].
  simpl in Htext.
  assert (Hc : forall rest, String.eqb (String c text) (String "-" rest)
                            = false).
  { intros rest. apply String.eqb_neq. intros [= -> _]. discriminate. }
  change "--arg" with (String "-" "-arg"). rewrite Hc.
  change "-r" with (String "-" "r"). rewrite Hc.
  change "-e" with (String "-" "e"). rewrite Hc.
  cbn [is_option]. rewrite Htext, Hprog. reflexivity.
Qed.

Lemma jq_getopt_cmd text (vs : dict) : forall o,
  is_option text = false -> opt_program o = None ->
  jq_getopt (flat_map arg_option vs ++ ["-r"; "-e"; text]) o
  = Some {| opt_named := opt_named o ++ vs; opt_raw := true;
            opt_exit := true; opt_program := Some text |}.
Proof.
  induction vs as [|[k v] vs IH]; intros o Htext Hprog.
  - rewrite List.app_nil_r.
    change (jq_getopt [text]
              {| opt_named := opt_named o; opt_raw := true;
                 opt_exit := true; opt_program := opt_program o |}
            = Some {| opt_named := opt_named o; opt_raw := true;
                      opt_exit := true; opt_program := Some text |}).
    now rewrite not_option_is_program.
  - change (jq_getopt (flat_map arg_option vs ++ ["-r"; "-e"; text])
              {| opt_named := opt_named o ++ [(k, v)];
                 opt_raw := opt_raw o; opt_exit := opt_exit o;
                 opt_program := opt_program o |}
            = Some {| opt_named := opt_named o ++ (k, v) :: vs;
                      opt_raw := true; opt_exit := true;
                      opt_program := Some text |}).
    rewrite IH by assumption. cbn [opt_named].
    now rewrite <- List.app_assoc.
Qed.

(** jq on the command line that [query_json] builds, when the composed
    text parses as the query piped into the post-filter. *)
Lemma jq_main_cmd query variables doc user :
  jq_parse (effective_query query) = Some (FPipe user post_filter) ->
  distinct_names (map fst (default [] variables)) = true ->
  jq_unbound (map fst (default [] variables)) user = false ->
  jq_main (jq_cmd query variables) doc
  = match jq_then
            (jq_eval user
               (map (fun kv => (fst kv, JString (snd kv)))
                    (default [] variables)) doc)
            (jq_eval post_filter
               (map (fun kv => (fst kv, JString (snd kv)))
                    (default [] variables))) with
    | Some s => Some {| exit_code := jq_exit_status s; printed := outputs s |}
    | None => None
    end.
Proof.
  intros Hparse Hdistinct Hclosed.
  assert (Hargs : var_args_of variables
                  = flat_map arg_option (default [] variables)).
  { destruct variables as [vs|]; [apply var_args_of_Some|reflexivity]. }
  unfold jq_main, jq_cmd. rewrite Hargs.
  change (["jq"] ++ flat_map arg_option (default [] variables)
            ++ ["-r"; "-e"; effective_query query])
    with ("jq" :: (flat_map arg_option (default [] variables)
                     ++ ["-r"; "-e"; effective_query query])).
  cbv iota. rewrite jq_getopt_cmd by reflexivity.
  cbn [opt_program opt_named opt_exit app].
  rewrite Hdistinct, Hparse. cbn [negb jq_unbound].
  rewrite Hclosed, post_filter_closed. cbn [orb jq_eval].
  reflexivity.
Qed.

Lemma forallb_rev (p : ascii -> bool) l :
  List.forallb p l = true -> List.forallb p (rev l) = true.
Proof.
  rewrite !List.forallb_forall. intros H x Hx. apply H.
  now apply List.in_rev.
Qed.

(** [strip] removes a run of whitespace at each end and nothing else. *)
Lemma strip_decompose s :
  exists lead trail,
    list_ascii_of_string s
    = lead ++ list_ascii_of_string (strip s) ++ trail
    /\ List.forallb isspace lead = true
    /\ List.forallb isspace trail = true.
Proof.
  destruct (lstrip_chars_split (list_ascii_of_string s))
    as (lead & Hlead & Hws1).
  destruct (lstrip_chars_split (rev (lstrip_chars (list_ascii_of_string s))))
    as (ws2 & Htrail & Hws2).
  exists lead, (rev ws2). split; [|split; [exact Hws1|now apply forallb_rev]].
  unfold strip. rewrite list_ascii_of_string_of_list_ascii.
  rewrite <- List.rev_app_distr, <- Htrail, List.rev_involutive.
  exact Hlead.
Qed.




Lemma query_json_ok_stripped env query data variables h s h' :
  query_json env query data variables h = (inr s, h') -> stripped s = true.
Proof.
  rewrite query_json_run. unfold query_json_outcome.
  destruct (Command_run env h (jq_cmd query variables) data) as [e|out];
    [intros [=]|].
  destruct (bytes_decode env (fst out)) as [s0|]; [|intros [=]].
  intros [= <- _]. apply strip_is_stripped.
Qed.

(** X1. A string returned by [query_json] has no whitespace at either end
    (stripping it again changes nothing), and returning it took exactly
    one process call. *)
Theorem query_json_returns_stripped env query data variables h s h' :
  query_json env query data variables h = (inr s, h') ->
  stripped s = true
  /\ strip s = s
  /\ h' = h ++ [EvRun (jq_cmd query variables) data].
Proof.
  intros Hrun.
  assert (Hs : stripped s = true)
    by exact (query_json_ok_stripped _ _ _ _ _ _ _ Hrun).
  split; [exact Hs|]. split; [now apply stripped_strip_fix|].
  rewrite query_json_run in Hrun. now inversion Hrun.
Qed.

Lemma query_json_returns_stripped_witness :
  query_json (Demo.env true) ".v" Demo.document None []
  = (inr "1.2.3", [EvRun (jq_cmd ".v" None) Demo.document])
  /\ stripped "1.2.3" = true.
Proof.
  split; [reflexivity|].
  exact (proj1 (query_json_returns_stripped
                  (Demo.env true) ".v" Demo.document None []
                  "1.2.3" [EvRun (jq_cmd ".v" None) Demo.document]
                  eq_refl)).
Defined.

(** ** More on the resolver *)

Lemma dict_set_values (Q : string -> Prop) (d : dict) k v :
  List.Forall (fun kv => Q (snd kv)) d -> Q v ->
  List.Forall (fun kv => Q (snd kv)) (dict_set d k v).
Proof.
  intros Hd Hv. induction d as [|[k' v'] d IH]; simpl.
  - constructor; [exact Hv|constructor].
  - inversion Hd as [|? ? Hhd Htl]; subst.
    destruct (String.eqb k' k); constructor; auto.
Qed.

Lemma query_sequence_from_stripped env data plan :
  forall (results : dict) h m h',
  List.Forall (fun kv => stripped (snd kv) = true) results ->
  query_sequence_from env results data plan h = (inr m, h') ->
  List.Forall (fun kv => stripped (snd kv) = true) m.
Proof.
  induction plan as [|[k0 q0] plan IH]; intros results h m h' Hres; simpl.
  - now intros [= <- <-].
  - destruct (falsy q0); [now apply IH|].
    unfold bind.
    destruct (query_json env (default "" q0) data (Some results) h)
      as [[e|r] h1] eqn:Hq; [intros [=]|].
    intros Hrun. eapply IH; [|exact Hrun].
    apply (dict_set_values (fun v => stripped v = true)); [exact Hres|].
    exact (query_json_ok_stripped _ _ _ _ _ _ _ Hq).
Qed.

(** X2. Every value of the mapping returned by [query_sequence] is free of
    surrounding whitespace, so every variable a later query receives is
    too. *)
Theorem query_sequence_values_stripped env data plan h m h' :
  query_sequence env data plan h = (inr m, h') ->
  List.Forall (fun kv => stripped (snd kv) = true) m
  /\ forall k v, dict_get m k = Some v -> strip v = v.
Proof.
  intros Hrun.
  assert (Hall : List.Forall (fun kv => stripped (snd kv) = true) m).
  { eapply query_sequence_from_stripped; [|exact Hrun]. constructor. }
  split; [exact Hall|].
  intros k v Hget. apply stripped_strip_fix.
  apply dict_get_In in Hget.
  rewrite List.Forall_forall in Hall. exact (Hall _ Hget).
Qed.

Lemma query_sequence_values_stripped_witness :
  query_sequence (Demo.env true) Demo.document
    [("version", Some ".v"); ("url", Some ".u")] []
  = (inr [("version", "1.2.3"); ("url", "https://x/1.2.3.tgz")],
     [EvRun (jq_cmd ".v" (Some [])) Demo.document;
      EvRun (jq_cmd ".u" (Some [("version", "1.2.3")])) Demo.document])
  /\ strip "https://x/1.2.3.tgz" = "https://x/1.2.3.tgz".
Proof.
  split; [reflexivity|].
  exact (proj2 (query_sequence_values_stripped
                  (Demo.env true) Demo.document
                  [("version", Some ".v"); ("url", Some ".u")] []
                  [("version", "1.2.3"); ("url", "https://x/1.2.3.tgz")]
                  [EvRun (jq_cmd ".v" (Some [])) Demo.document;
                   EvRun (jq_cmd ".u" (Some [("version", "1.2.3")]))
                         Demo.document]
                  eq_refl)
               "url" "https://x/1.2.3.tgz" eq_refl).
Defined.

Lemma existsb_keys (d : dict) k :
  existsb (String.eqb k) (map fst d)
  = match dict_get d k with Some _ => true | None => false end.
Proof.
  induction d as [|[k' v'] d IH]; simpl; [reflexivity|].
  rewrite (String.eqb_sym k k'). destruct (String.eqb k' k); simpl; auto.
Qed.

Lemma dict_set_add_key (d : dict) k v :
  map fst (dict_set d k v) = add_key (map fst d) k.
Proof.
  rewrite dict_set_keys. unfold add_key. rewrite existsb_keys.
  now destruct (dict_get d k).
Qed.

Lemma evaluated_skip k q plan :
  falsy q = true -> evaluated ((k, q) :: plan) = evaluated plan.
Proof. intros Hq. unfold evaluated. simpl. now rewrite Hq. Qed.

Lemma evaluated_keep k q plan :
  falsy q = false -> evaluated ((k, q) :: plan) = (k, q) :: evaluated plan.
Proof. intros Hq. unfold evaluated. simpl. now rewrite Hq. Qed.

Lemma query_sequence_from_key_order env data plan :
  forall (results : dict) h m h',
  query_sequence_from env results data plan h = (inr m, h') ->
  map fst m
  = fold_left add_key (map fst (evaluated plan)) (map fst results).
Proof.
  induction plan as [|[k0 q0] plan IH]; intros results h m h';
    cbn [query_sequence_from].
  - now intros [= <- <-].
  - destruct (falsy q0) eqn:Hq0.
    + rewrite (evaluated_skip _ _ _ Hq0). apply IH.
    + rewrite (evaluated_keep _ _ _ Hq0). simpl. unfold bind.
      destruct (query_json env (default "" q0) data (Some results) h)
        as [[e|r] h1]; [intros [=]|].
      intros Hrun. rewrite (IH _ _ _ _ Hrun). now rewrite dict_set_add_key.
Qed.

(** X3. The keys of the mapping returned by [query_sequence] are the keys
    of the evaluated entries, each once, in the order in which they first
    occur in the plan. This is the order of the [--arg] options. *)
Theorem query_sequence_key_order env data plan h m h' :
  query_sequence env data plan h = (inr m, h') ->
  map fst m = key_order (map fst (evaluated plan)).
Proof. intros Hrun. exact (query_sequence_from_key_order _ _ _ _ _ _ _ Hrun). Qed.

Lemma query_sequence_key_order_witness :
  query_sequence (Demo.env true) Demo.document
    [("b", Some ".v"); ("a", Some ".t"); ("c", None); ("b", Some ".c")] []
  = (inr [("b", "abcd1234"); ("a", "v2.0")],
     [EvRun (jq_cmd ".v" (Some [])) Demo.document;
      EvRun (jq_cmd ".t" (Some [("b", "1.2.3")])) Demo.document;
      EvRun (jq_cmd ".c" (Some [("b", "1.2.3"); ("a", "v2.0")]))
            Demo.document])
  /\ map fst [("b", "abcd1234"); ("a", "v2.0")]
     = key_order
         (map fst (evaluated [("b", Some ".v"); ("a", Some ".t");
                              ("c", None); ("b", Some ".c")])).
Proof.
  split; [reflexivity|].
  exact (query_sequence_key_order
           (Demo.env true) Demo.document
           [("b", Some ".v"); ("a", Some ".t"); ("c", None);
            ("b", Some ".c")] []
           [("b", "abcd1234"); ("a", "v2.0")]
           [EvRun (jq_cmd ".v" (Some [])) Demo.document;
            EvRun (jq_cmd ".t" (Some [("b", "1.2.3")])) Demo.document;
            EvRun (jq_cmd ".c" (Some [("b", "1.2.3"); ("a", "v2.0")]))
                  Demo.document]
           eq_refl).
Defined.

Lemma query_sequence_from_untouched env data plan :
  forall (results : dict) h m h' k,
  query_sequence_from env results data plan h = (inr m, h') ->
  (forall q, In (k, q) plan -> falsy q = true) ->
  dict_get m k = dict_get results k.
Proof.
  induction plan as [|[k0 q0] plan IH]; intros results h m h' k;
    cbn [query_sequence_from].
  - now intros [= <- <-] _.
  - destruct (falsy q0) eqn:Hq0.
    + intros Hrun Hk. apply (IH _ _ _ _ _ Hrun).
      intros q Hin. apply Hk. now right.
    + unfold bind.
      destruct (query_json env (default "" q0) data (Some results) h)
        as [[e|r] h1]; [intros [=]|].
      intros Hrun Hk.
      rewrite (IH _ _ _ _ _ Hrun) by (intros q Hin; apply Hk; now right).
      apply dict_get_set_ne. intros ->.
      specialize (Hk q0 (or_introl eq_refl)). congruence.
Qed.

(** X4. Last write wins. If [(k, q)] is the last evaluated entry for the
    key [k] and [query_json] returned [r] for it, the final mapping holds
    [r] under [k]; the keys that the entries from there on do not evaluate
    keep the value they had before. *)
Theorem query_sequence_last_write_wins
    env data pre k q post h m0 h1 r h2 m h' :
  falsy (Some q) = false ->
  query_sequence env data pre h = (inr m0, h1) ->
  query_json env q data (Some m0) h1 = (inr r, h2) ->
  query_sequence env data (pre ++ (k, Some q) :: post) h = (inr m, h') ->
  (forall q', In (k, q') post -> falsy q' = true) ->
  dict_get m k = Some r
  /\ forall k',
       k' <> k ->
       (forall q', In (k', q') post -> falsy q' = true) ->
       dict_get m k' = dict_get m0 k'.
Proof.
  intros Hq Hpre Hjson Hrun Hlast. unfold query_sequence in *.
  rewrite query_sequence_from_app, (bind_ok _ _ _ _ _ Hpre) in Hrun.
  rewrite (query_sequence_from_eval _ _ _ _ _ _ _ Hq) in Hrun.
  rewrite (bind_ok _ _ _ _ _ Hjson) in Hrun.
  split.
  - rewrite (query_sequence_from_untouched _ _ _ _ _ _ _ _ Hrun Hlast).
    apply dict_get_set_eq.
  - intros k' Hne Hk'.
    rewrite (query_sequence_from_untouched _ _ _ _ _ _ _ _ Hrun Hk').
    apply dict_get_set_ne. congruence.
Qed.

Lemma query_sequence_last_write_wins_witness :
  query_sequence (Demo.env true) Demo.document
    ([("b", Some ".v"); ("a", Some ".t")] ++ ("b", Some ".c")
       :: [("c", None)]) []
  = (inr [("b", "abcd1234"); ("a", "v2.0")],
     [EvRun (jq_cmd ".v" (Some [])) Demo.document;
      EvRun (jq_cmd ".t" (Some [("b", "1.2.3")])) Demo.document;
      EvRun (jq_cmd ".c" (Some [("b", "1.2.3"); ("a", "v2.0")]))
            Demo.document])
  /\ dict_get [("b", "abcd1234"); ("a", "v2.0")] "b" = Some "abcd1234".
Proof.
  split; [reflexivity|].
  refine (proj1 (query_sequence_last_write_wins
                   (Demo.env true) Demo.document
                   [("b", Some ".v"); ("a", Some ".t")] "b" ".c"
                   [("c", None)] []
                   [("b", "1.2.3"); ("a", "v2.0")]
                   [EvRun (jq_cmd ".v" (Some [])) Demo.document;
                    EvRun (jq_cmd ".t" (Some [("b", "1.2.3")]))
                          Demo.document]
                   "abcd1234"
                   [EvRun (jq_cmd ".v" (Some [])) Demo.document;
                    EvRun (jq_cmd ".t" (Some [("b", "1.2.3")]))
                          Demo.document;
                    EvRun (jq_cmd ".c"
                             (Some [("b", "1.2.3"); ("a", "v2.0")]))
                          Demo.document]
                   [("b", "abcd1234"); ("a", "v2.0")]
                   _ eq_refl eq_refl eq_refl eq_refl _)).
  intros q' Hin. destruct Hin as [Heq|[]]. now inversion Heq.
Defined.

Lemma query_sequence_from_no_query env data plan :
  forall (results : dict) h,
  evaluated plan = [] ->
  query_sequence_from env results data plan h = (inr results, h).
Proof.
  induction plan as [|[k0 q0] plan IH]; intros results h;
    cbn [query_sequence_from]; [reflexivity|].
  destruct (falsy q0) eqn:Hq0.
  - rewrite (evaluated_skip _ _ _ Hq0). apply IH.
  - rewrite (evaluated_keep _ _ _ Hq0). discriminate.
Qed.

Lemma query_sequence_from_some_query env data plan :
  forall (results : dict) h,
  evaluated plan <> [] ->
  exists ev evs,
    snd (query_sequence_from env results data plan h) = h ++ ev :: evs.
Proof.
  induction plan as [|[k0 q0] plan IH]; intros results h;
    cbn [query_sequence_from]; [intros H; now destruct H|].
  destruct (falsy q0) eqn:Hq0.
  - rewrite (evaluated_skip _ _ _ Hq0). apply IH.
  - intros _. unfold bind. rewrite query_json_run.
    destruct (query_json_outcome env _) as [e|s].
    + eexists _, []. reflexivity.
    + destruct (query_sequence_from env (dict_set results k0 s) data plan
                  (h ++ [EvRun (jq_cmd (default "" q0) (Some results)) data]))
        as [r h'] eqn:Hrest.
      destruct (query_sequence_from_events _ _ _ _ _ _ _ Hrest)
        as (evs & -> & _).
      eexists _, evs. simpl. now rewrite <- List.app_assoc.
Qed.

(** X5. jq is run if and only if some entry of the plan has a non-empty
    query. A plan without one, the empty plan included, gives the empty
    mapping and leaves the history as it was. *)
Theorem query_sequence_runs_jq_iff_some_query env data plan h :
  (snd (query_sequence env data plan h) = h <-> evaluated plan = [])
  /\ (evaluated plan = [] ->
      query_sequence env data plan h = (inr [], h)).
Proof.
  assert (Hnone : evaluated plan = [] ->
                  query_sequence env data plan h = (inr [], h))
    by apply query_sequence_from_no_query.
  split; [|exact Hnone]. split.
  - intros Hsame. destruct (evaluated plan) as [|entry rest] eqn:Hev;
      [reflexivity|exfalso].
    destruct (query_sequence_from_some_query env data plan [] h)
      as (ev & evs & Hgrow); [now rewrite Hev|].
    unfold query_sequence in Hsame. rewrite Hgrow in Hsame.
    apply (f_equal (@length event)) in Hsame.
    rewrite List.length_app in Hsame. simpl in Hsame. lia.
  - intros Hev. now rewrite (Hnone Hev).
Qed.

Lemma query_sequence_runs_jq_iff_some_query_witness :
  evaluated [("tag", None); ("commit", Some "")] = []
  /\ query_sequence Demo.faulty Demo.document
       [("tag", None); ("commit", Some "")] []
     = (inr [], []).
Proof.
  split; [reflexivity|].
  exact (proj2 (query_sequence_runs_jq_iff_some_query
                  Demo.faulty Demo.document
                  [("tag", None); ("commit", Some "")] [])
               eq_refl).
Defined.

Lemma query_sequence_from_runs_on env data plan :
  forall (results : dict) h r h',
  query_sequence_from env results data plan h = (r, h') ->
  exists evs,
    h' = h ++ evs
    /\ List.Forall (run_on data) evs
    /\ length evs <= length (evaluated plan)
    /\ (forall m, r = inr m -> length evs = length (evaluated plan)).
Proof.
  induction plan as [|[k0 q0] plan IH]; intros results h r h';
    cbn [query_sequence_from].
  - intros [= <- <-]. exists []. rewrite List.app_nil_r.
    split; [reflexivity|]. split; [constructor|]. split; [simpl; lia|].
    reflexivity.
  - destruct (falsy q0) eqn:Hq0.
    + rewrite (evaluated_skip _ _ _ Hq0). apply IH.
    + rewrite (evaluated_keep _ _ _ Hq0). unfold bind.
      rewrite query_json_run.
      destruct (query_json_outcome env _) as [e|s].
      * intros [= <- <-]. eexists. split; [reflexivity|].
        split; [constructor; [now eexists|constructor]|].
        split; [simpl; lia|discriminate].
      * intros Hrest.
        apply IH in Hrest as (evs & -> & Hall & Hlen & Hok).
        exists (EvRun (jq_cmd (default "" q0) (Some results)) data :: evs).
        split; [now rewrite <- List.app_assoc|].
        split; [constructor; [now eexists|exact Hall]|].
        split; [simpl; lia|].
        intros m Hm. simpl. f_equal. now apply (Hok m).
Qed.

(** X6. Whatever the outcome, [query_sequence] adds only jq calls to the
    history, each one fed the same [json_data], and at most one per
    entry with a non-empty query; when it returns a mapping it has made
    exactly one call per such entry. *)
Theorem query_sequence_calls_read_one_document env data plan h r h' :
  query_sequence env data plan h = (r, h') ->
  exists evs,
    h' = h ++ evs
    /\ List.Forall (run_on data) evs
    /\ length evs <= length (evaluated plan)
    /\ (forall m, r = inr m -> length evs = length (evaluated plan)).
Proof. apply query_sequence_from_runs_on. Qed.

Lemma query_sequence_calls_read_one_document_witness :
  query_sequence (Demo.env true) Demo.document
    [("version", Some ".v"); ("flag", Some ".ok"); ("url", Some ".u")] []
  = (inl (CheckerQueryError (Some "Error running jq")
            (CalledProcessError 5
               (jq_cmd ".ok" (Some [("version", "1.2.3")])))),
     [EvRun (jq_cmd ".v" (Some [])) Demo.document;
      EvRun (jq_cmd ".ok" (Some [("version", "1.2.3")])) Demo.document])
  /\ exists evs,
       [EvRun (jq_cmd ".v" (Some [])) Demo.document;
        EvRun (jq_cmd ".ok" (Some [("version", "1.2.3")])) Demo.document]
       = [] ++ evs
       /\ List.Forall (run_on Demo.document) evs
       /\ length evs <= 3.
Proof.
  split; [reflexivity|].
  destruct (query_sequence_calls_read_one_document
              (Demo.env true) Demo.document
              [("version", Some ".v"); ("flag", Some ".ok");
               ("url", Some ".u")] [] _ _ eq_refl)
    as (evs & Heq & Hall & Hlen & _).
  exists evs. repeat split; assumption.
Defined.

(** X7. [query_json] catches [CalledProcessError] only. Any other
    exception of the process call comes out unchanged, and standard output
    that does not decode raises [UnicodeDecodeError]; neither is wrapped
    in [CheckerQueryError]. The call is in the history in both cases. *)
Theorem query_json_wraps_only_process_exit env query data variables h :
  (forall e,
     Command_run env h (jq_cmd query variables) data = inl e ->
     is_CalledProcessError e = false ->
     query_json env query data variables h
     = (inl e, h ++ [EvRun (jq_cmd query variables) data]))
  /\ (forall out,
        Command_run env h (jq_cmd query variables) data = inr out ->
        bytes_decode env (fst out) = None ->
        query_json env query data variables h
        = (inl UnicodeDecodeError,
           h ++ [EvRun (jq_cmd query variables) data])).
Proof.
  split.
  - intros e Hrun He. rewrite query_json_run, Hrun. simpl. now rewrite He.
  - intros out Hrun Hdec. rewrite query_json_run, Hrun. simpl.
    now rewrite Hdec.
Qed.

Lemma query_json_wraps_only_process_exit_witness :
  query_json Demo.faulty ".v" Demo.document None []
  = (inl (OtherError "FileNotFoundError"),
     [] ++ [EvRun (jq_cmd ".v" None) Demo.document])
  /\ query_json Demo.faulty ".raw" Demo.document None []
     = (inl UnicodeDecodeError,
        [] ++ [EvRun (jq_cmd ".raw" None) Demo.document]).
Proof.
  split.
  - exact (proj1 (query_json_wraps_only_process_exit
                    Demo.faulty ".v" Demo.document None [])
                 (OtherError "FileNotFoundError") eq_refl eq_refl).
  - exact (proj2 (query_json_wraps_only_process_exit
                    Demo.faulty ".raw" Demo.document None [])
                 ([Byte.xff], []) eq_refl eq_refl).
Defined.

(** ** The shape of the histories *)

Lemma check_data_shape env json_data d h :
  exists runs tail,
    snd (_check_data env json_data d h) = h ++ runs ++ tail
    /\ List.Forall (run_on json_data) runs
    /\ plain_tail d tail
    /\ (fst (_check_data env json_data d h) = inr tt -> tail <> []).
Proof.
  unfold _check_data. cbv zeta. unfold config_item.
  destruct (data_checker_data d !! "version-query") as [vq|].
  2:{ exists [], []. simpl. rewrite List.app_nil_r.
      repeat split; [constructor|now left|discriminate]. }
  rewrite (bind_lift_ok _ _ _ vq) by reflexivity.
  destruct (data_checker_data d !! "url-query") as [uq|].
  2:{ exists [], []. simpl. rewrite List.app_nil_r.
      repeat split; [constructor|now left|discriminate]. }
  rewrite (bind_lift_ok _ _ _ uq) by reflexivity.
  destruct (query_sequence env json_data
              [("tag", data_checker_data d !! "tag-query");
               ("commit", data_checker_data d !! "commit-query");
               ("version", Some vq); ("url", Some uq)] h)
    as [[e|results] h1] eqn:Hrun;
    destruct (query_sequence_from_runs_on _ _ _ _ _ _ _ Hrun)
      as (runs & -> & Hall & _).
  { rewrite (bind_raises _ _ _ _ _ Hrun). exists runs, []. simpl.
    rewrite List.app_nil_r.
    repeat split; [exact Hall|now left|discriminate]. }
  rewrite (bind_ok _ _ _ _ _ Hrun). unfold dict_item.
  destruct (dict_get results "version") as [v|].
  2:{ exists runs, []. simpl. rewrite List.app_nil_r.
      repeat split; [exact Hall|now left|discriminate]. }
  rewrite (bind_lift_ok _ _ _ v) by reflexivity.
  destruct (dict_get results "url") as [u|].
  2:{ exists runs, []. simpl. rewrite List.app_nil_r.
      repeat split; [exact Hall|now left|discriminate]. }
  rewrite (bind_lift_ok _ _ _ u) by reflexivity.
  exists runs, [EvUpdateVersion d v u false]. unfold call. simpl.
  rewrite <- List.app_assoc.
  repeat split; [exact Hall|right; now exists v, u|discriminate].
Qed.

Lemma check_git_shape env json_data r h :
  exists runs tail,
    snd (_check_git env json_data r h) = h ++ runs ++ tail
    /\ List.Forall (run_on json_data) runs
    /\ git_tail r tail
    /\ (fst (_check_git env json_data r h) = inr tt ->
        exists front ref, tail = front ++ [EvSetNewVersion r ref]).
Proof.
  unfold _check_git. cbv zeta. unfold config_item.
  destruct (repo_checker_data r !! "tag-query") as [tq|].
  2:{ exists [], []. simpl. rewrite List.app_nil_r.
      repeat split; [constructor|now left|discriminate]. }
  rewrite (bind_lift_ok _ _ _ tq) by reflexivity.
  destruct (query_sequence env json_data
              [("tag", Some tq);
               ("commit", repo_checker_data r !! "commit-query");
               ("version", repo_checker_data r !! "version-query");
               ("timestamp", repo_checker_data r !! "timestamp-query")] h)
    as [[e|results] h1] eqn:Hrun;
    destruct (query_sequence_from_runs_on _ _ _ _ _ _ _ Hrun)
      as (runs & -> & Hall & _).
  { rewrite (bind_raises _ _ _ _ _ Hrun). exists runs, []. simpl.
    rewrite List.app_nil_r.
    repeat split; [exact Hall|now left|discriminate]. }
  rewrite (bind_ok _ _ _ _ _ Hrun). unfold dict_item.
  destruct (dict_get results "tag") as [t|].
  2:{ exists runs, []. simpl. rewrite List.app_nil_r.
      repeat split; [exact Hall|now left|discriminate]. }
  rewrite (bind_lift_ok _ _ _ t) by reflexivity.
  destruct (parse_timestamp env (dict_get results "timestamp"))
    as [e|ts] eqn:Hts.
  { rewrite (bind_raises _ _ _ e (h ++ runs)) by reflexivity.
    exists runs, []. simpl. rewrite List.app_nil_r.
    repeat split; [exact Hall|now left|discriminate]. }
  rewrite (bind_lift_ok _ _ _ ts) by reflexivity.
  cbn [commit].
  destruct (dict_get results "commit") as [c|] eqn:Hc.
  - pose (ref := {| url := url (current_version r); commit := Some c;
                    tag := t; branch := None;
                    version := dict_get results "version";
                    timestamp := ts |}).
    exists runs, [EvSetNewVersion r ref]. unfold bind, ret, call. simpl.
    rewrite <- List.app_assoc.
    split; [reflexivity|]. split; [exact Hall|]. split.
    + right. right. right. exists ref. split; [split; reflexivity|].
      split; [discriminate|reflexivity].
    + intros _. now exists [], ref.
  - pose (ref := {| url := url (current_version r); commit := None;
                    tag := t; branch := None;
                    version := dict_get results "version";
                    timestamp := ts |}).
    unfold bind, call. fold ref.
    destruct (fetch_remote env (h ++ runs) ref) as [e|resolved] eqn:Hf.
    + exists runs, [EvFetchRemote ref]. simpl. rewrite <- List.app_assoc.
      split; [reflexivity|]. split; [exact Hall|]. split.
      * right. left. exists ref. split; [split; reflexivity|].
        split; reflexivity.
      * discriminate.
    + exists runs, [EvFetchRemote ref; EvSetNewVersion r resolved]. simpl.
      rewrite <- !List.app_assoc.
      split; [reflexivity|]. split; [exact Hall|]. split.
      * right. right. left. exists ref, resolved.
        split; [split; reflexivity|]. split; reflexivity.
      * intros _. now exists [EvFetchRemote ref], resolved.
Qed.

Lemma run_on_In data evs ev :
  List.Forall (run_on data) evs -> In ev evs -> run_on data ev.
Proof. intros Hall Hin. rewrite List.Forall_forall in Hall. auto. Qed.

(** X8. Whatever the environment answers, [_check_data] adds to the
    history jq calls on [json_data] and then at most one call of
    [_update_version], for this record and with [follow_redirects=False];
    it never calls [fetch_remote] or [set_new_version], and it returns
    normally only if [_update_version] was called. *)
Theorem check_data_history_shape env json_data d h :
  exists runs tail,
    snd (_check_data env json_data d h) = h ++ runs ++ tail
    /\ List.Forall (run_on json_data) runs
    /\ (tail = [] \/ exists v u, tail = [EvUpdateVersion d v u false])
    /\ (fst (_check_data env json_data d h) = inr tt -> tail <> []).
Proof. apply check_data_shape. Qed.

Lemma check_data_history_shape_witness :
  fst (_check_data (Demo.env true) Demo.document
         (Demo.plain [("version-query", ".v"); ("url-query", ".u")]) [])
  = inr tt
  /\ exists runs tail,
       snd (_check_data (Demo.env true) Demo.document
              (Demo.plain [("version-query", ".v"); ("url-query", ".u")]) [])
       = [] ++ runs ++ tail
       /\ tail <> [].
Proof.
  split; [reflexivity|].
  destruct (check_data_history_shape
              (Demo.env true) Demo.document
              (Demo.plain [("version-query", ".v"); ("url-query", ".u")]) [])
    as (runs & tail & Heq & _ & _ & Hok).
  exists runs, tail. split; [exact Heq|]. apply Hok. reflexivity.
Defined.

(** X9. Whatever the environment answers, [_check_git] adds to the
    history jq calls on [json_data] and then nothing, or [fetch_remote],
    or [fetch_remote] and [set_new_version], or [set_new_version] alone.
    A record given to [fetch_remote] has no commit; a record given to
    [set_new_version] without [fetch_remote] has one; both have the
    current url and no branch. [_update_version] is never called, and
    the flow returns normally only if [set_new_version] was called last. *)
Theorem check_git_history_shape env json_data r h :
  exists runs tail,
    snd (_check_git env json_data r h) = h ++ runs ++ tail
    /\ List.Forall (run_on json_data) runs
    /\ (tail = []
        \/ (exists ref,
              built_from r ref /\ commit ref = None
              /\ tail = [EvFetchRemote ref])
        \/ (exists ref resolved,
              built_from r ref /\ commit ref = None
              /\ tail = [EvFetchRemote ref; EvSetNewVersion r resolved])
        \/ (exists ref,
              built_from r ref /\ commit ref <> None
              /\ tail = [EvSetNewVersion r ref]))
    /\ (fst (_check_git env json_data r h) = inr tt ->
        exists front ref, tail = front ++ [EvSetNewVersion r ref]).
Proof. apply check_git_shape. Qed.

Lemma check_git_history_shape_witness :
  fst (_check_git (Demo.env true) Demo.document
         (Demo.repo [("tag-query", ".t")]) [])
  = inr tt
  /\ exists runs tail front ref,
       snd (_check_git (Demo.env true) Demo.document
              (Demo.repo [("tag-query", ".t")]) [])
       = [] ++ runs ++ tail
       /\ tail = front ++ [EvSetNewVersion (Demo.repo [("tag-query", ".t")])
                                           ref].
Proof.
  split; [reflexivity|].
  destruct (check_git_history_shape
              (Demo.env true) Demo.document
              (Demo.repo [("tag-query", ".t")]) [])
    as (runs & tail & Heq & _ & _ & Hok).
  destruct (Hok eq_refl) as (front & ref & Htail).
  exists runs, tail, front, ref. split; assumption.
Defined.

Lemma check_shape env ed h :
  snd (check env ed h) = h
  \/ exists json_url rest,
       checker_data ed !! "url" = Some json_url
       /\ snd (check env ed h) = h ++ EvGet json_url :: rest
       /\ (forall u, ~ In (EvGet u) rest)
       /\ (forall argv input,
             In (EvRun argv input) rest ->
             session_get env h json_url = inr input).
Proof.
  unfold check.
  destruct (should_check env ed); [|now left].
  rewrite (bind_ok _ _ _ tt h) by reflexivity.
  unfold config_item.
  destruct (checker_data ed !! "url") as [json_url|] eqn:Hurl; [|now left].
  rewrite (bind_lift_ok _ _ _ json_url) by reflexivity.
  right. exists json_url.
  destruct (session_get env h json_url) as [e|json_data] eqn:Hget.
  - exists []. split; [reflexivity|].
    rewrite (bind_raises _ _ _
               (if NETWORK_ERRORS env e then CheckerQueryError None e else e)
               (h ++ [EvGet json_url]))
      by (unfold try_reraise, call; now rewrite Hget).
    split; [reflexivity|]. split; [intros u []|intros argv input []].
  - rewrite (bind_ok _ _ _ json_data (h ++ [EvGet json_url]))
      by (unfold try_reraise, call; now rewrite Hget).
    assert (Hflow : exists runs tail,
              snd (match ed with
                   | IsData d => _check_data env json_data d
                   | IsGitRepo r => _check_git env json_data r
                   end (h ++ [EvGet json_url]))
              = (h ++ [EvGet json_url]) ++ runs ++ tail
              /\ List.Forall (run_on json_data) runs
              /\ (forall ev, In ev tail ->
                    match ev with
                    | EvGet _ | EvRun _ _ => False
                    | _ => True
                    end)).
    { destruct ed as [d|r].
      - destruct (check_data_shape env json_data d (h ++ [EvGet json_url]))
          as (runs & tail & Heq & Hall & Htail & _).
        exists runs, tail. split; [exact Heq|]. split; [exact Hall|].
        intros ev Hin. destruct Htail as [->|(v & u & ->)]; [destruct Hin|].
        destruct Hin as [<-|[]]. exact I.
      - destruct (check_git_shape env json_data r (h ++ [EvGet json_url]))
          as (runs & tail & Heq & Hall & Htail & _).
        exists runs, tail. split; [exact Heq|]. split; [exact Hall|].
        intros ev Hin.
        destruct Htail
          as [->|[(ref & _ & _ & ->)
                 |[(ref & res & _ & _ & ->)|(ref & _ & _ & ->)]]];
          simpl in Hin; intuition (subst; exact I). }
    destruct Hflow as (runs & tail & Heq & Hall & Htail).
    exists (runs ++ tail). split; [reflexivity|]. split.
    + rewrite Heq. now rewrite <- List.app_assoc.
    + split.
      * intros u Hin. apply List.in_app_or in Hin as [Hin|Hin].
        -- destruct (run_on_In _ _ _ Hall Hin) as (argv & [=]).
        -- exact (Htail _ Hin).
      * intros argv input Hin. apply List.in_app_or in Hin as [Hin|Hin].
        -- destruct (run_on_In _ _ _ Hall Hin) as (argv' & [= _ ->]).
           reflexivity.
        -- destruct (Htail _ Hin).
Qed.

(** X10. [check] makes at most one HTTP request, and makes it before
    anything else: either the history is unchanged, or it gains a GET of
    the configured url followed by calls among which there is no GET.
    Every jq call among them reads the body that this GET returned. *)
Theorem check_fetches_once_and_first env ed h :
  snd (check env ed h) = h
  \/ exists json_url rest,
       checker_data ed !! "url" = Some json_url
       /\ snd (check env ed h) = h ++ EvGet json_url :: rest
       /\ (forall u, ~ In (EvGet u) rest)
       /\ (forall argv input,
             In (EvRun argv input) rest ->
             session_get env h json_url = inr input).
Proof. apply check_shape. Qed.

Lemma check_fetches_once_and_first_witness :
  exists json_url rest,
    snd (check (Demo.env true)
           (IsData (Demo.plain [("url", "https://x/v.json");
                                ("version-query", ".v");
                                ("url-query", ".u")])) [])
    = [] ++ EvGet json_url :: rest
    /\ forall u, ~ In (EvGet u) rest.
Proof.
  destruct (check_fetches_once_and_first
              (Demo.env true)
              (IsData (Demo.plain [("url", "https://x/v.json");
                                   ("version-query", ".v");
                                   ("url-query", ".u")])) [])
    as [Hsame|(json_url & rest & _ & Heq & Hnoget & _)].
  - discriminate Hsame.
  - exists json_url, rest. split; assumption.
Defined.

(** ** Failures of the orchestrator *)

(** X11. Two failures of [check] that are not [CheckerQueryError]. For an
    eligible record without ["url"], [check] raises [KeyError("url")]
    and makes no call. When the GET raises an exception outside
    [NETWORK_ERRORS], that exception comes out unchanged, and the GET is
    the only call made. *)
Theorem check_failures_outside_taxonomy env ed h :
  should_check env ed = true ->
  (checker_data ed !! "url" = None ->
   check env ed h = (inl (KeyError "url"), h))
  /\ (forall json_url e,
        checker_data ed !! "url" = Some json_url ->
        session_get env h json_url = inl e ->
        NETWORK_ERRORS env e = false ->
        check env ed h = (inl e, h ++ [EvGet json_url])).
Proof.
  intros Hok. split.
  - intros Hurl. unfold check. rewrite Hok.
    rewrite (bind_ok _ _ _ tt h) by reflexivity.
    apply bind_raises. unfold lift, config_item. now rewrite Hurl.
  - intros json_url e Hurl Hget Hnet. unfold check. rewrite Hok.
    rewrite (bind_ok _ _ _ tt h) by reflexivity.
    lookup_ok json_url Hurl.
    apply bind_raises. unfold try_reraise, call. now rewrite Hget, Hnet.
Qed.

Lemma check_failures_outside_taxonomy_witness :
  check Demo.faulty (IsData (Demo.plain [("version-query", ".v")])) []
  = (inl (KeyError "url"), [])
  /\ check Demo.faulty
       (IsData (Demo.plain [("url", "https://x/v.json")])) []
     = (inl (OtherError "CancelledError"),
        [] ++ [EvGet "https://x/v.json"]).
Proof.
  split.
  - exact (proj1 (check_failures_outside_taxonomy
                    Demo.faulty
                    (IsData (Demo.plain [("version-query", ".v")])) []
                    eq_refl) eq_refl).
  - exact (proj2 (check_failures_outside_taxonomy
                    Demo.faulty
                    (IsData (Demo.plain [("url", "https://x/v.json")])) []
                    eq_refl)
                 "https://x/v.json" (OtherError "CancelledError")
                 eq_refl eq_refl eq_refl).
Defined.

(** X12. In the git flow ["tag-query"] is read with an unconditional
    lookup. Without it [_check_git] raises [KeyError("tag-query")]
    before any call, and the exception is not a [CheckerQueryError]. The
    schema accepts such a configuration: one with ["url"],
    ["version-query"] and ["url-query"] validates. *)
Theorem check_git_missing_tag_query env json_data r h :
  repo_checker_data r !! "tag-query" = None ->
  _check_git env json_data r h = (inl (KeyError "tag-query"), h)
  /\ is_CheckerQueryError (KeyError "tag-query") = false
  /\ forall u vq uq : string,
       validates CHECKER_DATA_SCHEMA
         (<["url" := u]> (<["version-query" := vq]> {["url-query" := uq]}))
       = true
       /\ (<["url" := u]> (<["version-query" := vq]> {["url-query" := uq]})
             : gmap string string) !! "tag-query" = None.
Proof.
  intros Htq. split; [|split; [reflexivity|]].
  - unfold _check_git, config_item. now rewrite Htq.
  - intros u vq uq. split; reflexivity.
Qed.

Lemma check_git_missing_tag_query_witness :
  repo_checker_data
    (Demo.repo [("url", "https://x/v.json");
                ("version-query", ".v"); ("url-query", ".u")])
    !! "tag-query" = None
  /\ _check_git (Demo.env true) Demo.document
       (Demo.repo [("url", "https://x/v.json");
                   ("version-query", ".v"); ("url-query", ".u")]) []
     = (inl (KeyError "tag-query"), []).
Proof.
  split; [reflexivity|].
  exact (proj1 (check_git_missing_tag_query
                  (Demo.env true) Demo.document
                  (Demo.repo [("url", "https://x/v.json");
                              ("version-query", ".v"); ("url-query", ".u")])
                  [] eq_refl)).
Defined.

Lemma query_sequence_key_absent env data plan h m h' k :
  query_sequence env data plan h = (inr m, h') ->
  (forall q, In (k, q) plan -> falsy q = true) ->
  dict_get m k = None.
Proof.
  intros Hrun Hk.
  exact (query_sequence_from_untouched _ _ _ _ _ _ _ k Hrun Hk).
Qed.

Lemma query_sequence_key_present env data plan h m h' k q :
  query_sequence env data plan h = (inr m, h') ->
  In (k, q) plan -> falsy q = false ->
  is_Some (dict_get m k).
Proof.
  intros Hrun Hin Hq.
  apply (query_sequence_from_keys _ _ _ _ _ _ _ Hrun k). right. eauto.
Qed.

(** X13. An empty ["tag-query"] is skipped like an absent one, so when
    the rest of the plan resolves, the mapping has no ["tag"] and
    [_check_git] raises [KeyError("tag")]: after the jq calls of the
    other queries, and without calling [fetch_remote] or
    [set_new_version]. *)
Theorem check_git_empty_tag_query env json_data r h results h1 :
  repo_checker_data r !! "tag-query" = Some "" ->
  query_sequence env json_data
    [("tag", Some "");
     ("commit", repo_checker_data r !! "commit-query");
     ("version", repo_checker_data r !! "version-query");
     ("timestamp", repo_checker_data r !! "timestamp-query")] h
  = (inr results, h1) ->
  dict_get results "tag" = None
  /\ _check_git env json_data r h = (inl (KeyError "tag"), h1)
  /\ exists runs, h1 = h ++ runs /\ List.Forall (run_on json_data) runs.
Proof.
  intros Htq Hrun.
  assert (Hnone : dict_get results "tag" = None).
  { apply (query_sequence_key_absent _ _ _ _ _ _ _ Hrun).
    intros q [[= <-]|[[=]|[[=]|[[=]|[]]]]]. reflexivity. }
  split; [exact Hnone|]. split.
  - unfold _check_git. cbv zeta. lookup_ok "" Htq.
    rewrite (bind_ok _ _ _ _ _ Hrun).
    apply bind_raises. unfold lift, dict_item. now rewrite Hnone.
  - destruct (query_sequence_from_runs_on _ _ _ _ _ _ _ Hrun)
      as (runs & -> & Hall & _).
    now exists runs.
Qed.

Lemma check_git_empty_tag_query_witness :
  query_sequence (Demo.env true) Demo.document
    [("tag", Some ""); ("commit", Some ".c"); ("version", None);
     ("timestamp", None)] []
  = (inr [("commit", "abcd1234")],
     [EvRun (jq_cmd ".c" (Some [])) Demo.document])
  /\ _check_git (Demo.env true) Demo.document
       (Demo.repo [("tag-query", ""); ("commit-query", ".c")]) []
     = (inl (KeyError "tag"),
        [EvRun (jq_cmd ".c" (Some [])) Demo.document]).
Proof.
  split; [reflexivity|].
  exact (proj1 (proj2 (check_git_empty_tag_query
                         (Demo.env true) Demo.document
                         (Demo.repo [("tag-query", "");
                                     ("commit-query", ".c")])
                         [] [("commit", "abcd1234")]
                         [EvRun (jq_cmd ".c" (Some [])) Demo.document]
                         eq_refl eq_refl))).
Defined.

(** X14. An empty ["version-query"] or ["url-query"] is skipped, so when
    the plan resolves, the mapping lacks ["version"] or ["url"] and
    [_check_data] raises [KeyError] on the first of the two that is
    missing, after the jq calls and without calling [_update_version]. *)
Theorem check_data_empty_mandatory_query
    env json_data d h vq uq results h1 :
  data_checker_data d !! "version-query" = Some vq ->
  data_checker_data d !! "url-query" = Some uq ->
  vq = "" \/ uq = "" ->
  query_sequence env json_data
    [("tag", data_checker_data d !! "tag-query");
     ("commit", data_checker_data d !! "commit-query");
     ("version", Some vq); ("url", Some uq)] h = (inr results, h1) ->
  exists key,
    (key = "version" \/ key = "url")
    /\ dict_get results key = None
    /\ _check_data env json_data d h = (inl (KeyError key), h1)
    /\ exists runs, h1 = h ++ runs /\ List.Forall (run_on json_data) runs.
Proof.
  intros Hvq Huq Hempty Hrun.
  assert (Hruns : exists runs,
            h1 = h ++ runs /\ List.Forall (run_on json_data) runs).
  { destruct (query_sequence_from_runs_on _ _ _ _ _ _ _ Hrun)
      as (runs & -> & Hall & _).
    now exists runs. }
  destruct (dict_get results "version") as [v|] eqn:Hv.
  - assert (Hu : dict_get results "url" = None).
    { destruct Hempty as [->| ->].
      - assert (Hnone : dict_get results "version" = None).
        { apply (query_sequence_key_absent _ _ _ _ _ _ _ Hrun).
          intros q [[=]|[[=]|[[= <-]|[[=]|[]]]]]. reflexivity. }
        congruence.
      - apply (query_sequence_key_absent _ _ _ _ _ _ _ Hrun).
        intros q [[=]|[[=]|[[=]|[[= <-]|[]]]]]. reflexivity. }
    exists "url". split; [now right|]. split; [exact Hu|].
    split; [|exact Hruns].
    unfold _check_data. cbv zeta. lookup_ok vq Hvq. lookup_ok uq Huq.
    rewrite (bind_ok _ _ _ _ _ Hrun). lookup_ok v Hv.
    apply bind_raises. unfold lift, dict_item. now rewrite Hu.
  - exists "version". split; [now left|]. split; [exact Hv|].
    split; [|exact Hruns].
    unfold _check_data. cbv zeta. lookup_ok vq Hvq. lookup_ok uq Huq.
    rewrite (bind_ok _ _ _ _ _ Hrun).
    apply bind_raises. unfold lift, dict_item. now rewrite Hv.
Qed.

Lemma check_data_empty_mandatory_query_witness :
  query_sequence (Demo.env true) Demo.document
    [("tag", None); ("commit", None);
     ("version", Some ""); ("url", Some ".u")] []
  = (inr [("url", "https://x/1.2.3.tgz")],
     [EvRun (jq_cmd ".u" (Some [])) Demo.document])
  /\ exists key,
       _check_data (Demo.env true) Demo.document
         (Demo.plain [("version-query", ""); ("url-query", ".u")]) []
       = (inl (KeyError key),
          [EvRun (jq_cmd ".u" (Some [])) Demo.document]).
Proof.
  split; [reflexivity|].
  destruct (check_data_empty_mandatory_query
              (Demo.env true) Demo.document
              (Demo.plain [("version-query", ""); ("url-query", ".u")])
              [] "" ".u" [("url", "https://x/1.2.3.tgz")]
              [EvRun (jq_cmd ".u" (Some [])) Demo.document]
              eq_refl eq_refl (or_introl eq_refl) eq_refl)
    as (key & _ & _ & Hraise & _).
  exists key. exact Hraise.
Defined.

(** X15. When the timestamp result does not parse, [_check_git] raises
    the [CheckerQueryError] of [parse_timestamp] right after the jq
    calls: no record is built, and neither [fetch_remote] nor
    [set_new_version] is called, whether or not a commit was found. *)
Theorem check_git_bad_timestamp env json_data r h tq results h1 t e :
  repo_checker_data r !! "tag-query" = Some tq ->
  query_sequence env json_data
    [("tag", Some tq);
     ("commit", repo_checker_data r !! "commit-query");
     ("version", repo_checker_data r !! "version-query");
     ("timestamp", repo_checker_data r !! "timestamp-query")] h
  = (inr results, h1) ->
  dict_get results "tag" = Some t ->
  parse_timestamp env (dict_get results "timestamp") = inl e ->
  _check_git env json_data r h = (inl e, h1)
  /\ is_CheckerQueryError e = true
  /\ exists runs, h1 = h ++ runs /\ List.Forall (run_on json_data) runs.
Proof.
  intros Htq Hrun Htag Hts. split; [|split].
  - unfold _check_git. cbv zeta. lookup_ok tq Htq.
    rewrite (bind_ok _ _ _ _ _ Hrun). lookup_ok t Htag.
    apply bind_raises. unfold lift. now rewrite Hts.
  - unfold parse_timestamp in Hts.
    destruct (dict_get results "timestamp") as [s|]; [|discriminate].
    destruct (fromisoformat env (sub_Z_end s)); [|discriminate].
    now inversion Hts.
  - destruct (query_sequence_from_runs_on _ _ _ _ _ _ _ Hrun)
      as (runs & -> & Hall & _).
    now exists runs.
Qed.

Lemma check_git_bad_timestamp_witness :
  query_sequence (Demo.env true) Demo.document
    [("tag", Some ".t"); ("commit", None); ("version", None);
     ("timestamp", Some ".bad")] []
  = (inr [("tag", "v2.0"); ("timestamp", "not-a-date")],
     [EvRun (jq_cmd ".t" (Some [])) Demo.document;
      EvRun (jq_cmd ".bad" (Some [("tag", "v2.0")])) Demo.document])
  /\ _check_git (Demo.env true) Demo.document
       (Demo.repo [("tag-query", ".t"); ("timestamp-query", ".bad")]) []
     = (inl (CheckerQueryError (Some "Failed to parse timestamp")
               (ValueError "Invalid isoformat string: not-a-date")),
        [EvRun (jq_cmd ".t" (Some [])) Demo.document;
         EvRun (jq_cmd ".bad" (Some [("tag", "v2.0")])) Demo.document]).
Proof.
  split; [reflexivity|].
  exact (proj1 (check_git_bad_timestamp
                  (Demo.env true) Demo.document
                  (Demo.repo [("tag-query", ".t");
                              ("timestamp-query", ".bad")])
                  [] ".t"
                  [("tag", "v2.0"); ("timestamp", "not-a-date")]
                  [EvRun (jq_cmd ".t" (Some [])) Demo.document;
                   EvRun (jq_cmd ".bad" (Some [("tag", "v2.0")]))
                         Demo.document]
                  "v2.0"
                  (CheckerQueryError (Some "Failed to parse timestamp")
                     (ValueError "Invalid isoformat string: not-a-date"))
                  eq_refl eq_refl eq_refl eq_refl)).
Defined.

(** X16. A plan that fails makes its flow fail the same way: when
    [query_sequence] raises [e], [_check_data] and [_check_git] raise
    [e] with the history as the resolver left it, so no collaborator is
    called after a failed query. *)
Theorem flows_propagate_plan_failure env json_data h e h2 :
  (forall d vq uq,
     data_checker_data d !! "version-query" = Some vq ->
     data_checker_data d !! "url-query" = Some uq ->
     query_sequence env json_data
       [("tag", data_checker_data d !! "tag-query");
        ("commit", data_checker_data d !! "commit-query");
        ("version", Some vq); ("url", Some uq)] h = (inl e, h2) ->
     _check_data env json_data d h = (inl e, h2))
  /\ (forall r tq,
        repo_checker_data r !! "tag-query" = Some tq ->
        query_sequence env json_data
          [("tag", Some tq);
           ("commit", repo_checker_data r !! "commit-query");
           ("version", repo_checker_data r !! "version-query");
           ("timestamp", repo_checker_data r !! "timestamp-query")] h
        = (inl e, h2) ->
        _check_git env json_data r h = (inl e, h2))
  /\ (forall plan,
        query_sequence env json_data plan h = (inl e, h2) ->
        exists runs, h2 = h ++ runs /\ List.Forall (run_on json_data) runs).
Proof.
  split; [|split].
  - intros d vq uq Hvq Huq Hrun. unfold _check_data. cbv zeta.
    lookup_ok vq Hvq. lookup_ok uq Huq. now apply bind_raises.
  - intros r tq Htq Hrun. unfold _check_git. cbv zeta.
    lookup_ok tq Htq. now apply bind_raises.
  - intros plan Hrun.
    destruct (query_sequence_from_runs_on _ _ _ _ _ _ _ Hrun)
      as (runs & -> & Hall & _).
    now exists runs.
Qed.

Lemma flows_propagate_plan_failure_witness :
  _check_data (Demo.env true) Demo.document
    (Demo.plain [("tag-query", ".ok"); ("version-query", ".v");
                 ("url-query", ".u")]) []
  = (inl (CheckerQueryError (Some "Error running jq")
            (CalledProcessError 5 (jq_cmd ".ok" (Some [])))),
     [EvRun (jq_cmd ".ok" (Some [])) Demo.document]).
Proof.
  exact (proj1 (flows_propagate_plan_failure
                  (Demo.env true) Demo.document []
                  (CheckerQueryError (Some "Error running jq")
                     (CalledProcessError 5 (jq_cmd ".ok" (Some []))))
                  [EvRun (jq_cmd ".ok" (Some [])) Demo.document])
               (Demo.plain [("tag-query", ".ok"); ("version-query", ".v");
                            ("url-query", ".u")])
               ".v" ".u" eq_refl eq_refl eq_refl).
Defined.

(** ** More on the timestamp normaliser *)

Lemma string_of_list_ascii_app l l' :
  string_of_list_ascii (l ++ l')
  = string_of_list_ascii l +:+ string_of_list_ascii l'.
Proof. induction l as [|c l IH]; simpl; [reflexivity|now rewrite IH]. Qed.

Lemma string_append_assoc (a b c : string) :
  (a +:+ b) +:+ c = a +:+ (b +:+ c).
Proof.
  induction a as [|x a IH]; [reflexivity|].
  change (String x ((a +:+ b) +:+ c) = String x (a +:+ (b +:+ c))).
  now f_equal.
Qed.

Lemma string_snoc s c r :
  rev (list_ascii_of_string s) = c :: r ->
  s = string_of_list_ascii (rev r) +:+ String c "".
Proof.
  intros Hrev. apply (f_equal (@rev ascii)) in Hrev.
  rewrite List.rev_involutive in Hrev. simpl in Hrev.
  rewrite <- (string_of_list_ascii_of_string s), Hrev.
  apply string_of_list_ascii_app.
Qed.

Lemma sub_Z_end_cases s :
  match rev (list_ascii_of_string s) with
  | c :: r =>
      if Ascii.eqb c "Z"
      then sub_Z_end s = string_of_list_ascii (rev r) +:+ "+00:00"
      else if Ascii.eqb c "010"
      then match r with
           | c' :: r' =>
               if Ascii.eqb c' "Z"
               then sub_Z_end s
                    = string_of_list_ascii (rev r') +:+ "+00:00"
                      +:+ String "010" ""
               else sub_Z_end s = s
           | [] => sub_Z_end s = s
           end
      else sub_Z_end s = s
  | [] => sub_Z_end s = s
  end.
Proof.
  unfold sub_Z_end.
  destruct (rev (list_ascii_of_string s)) as [|c r]; [reflexivity|].
  destruct c as [[] [] [] [] [] [] [] []]; try reflexivity.
  destruct r as [|c' r']; [reflexivity|].
  destruct c' as [[] [] [] [] [] [] [] []]; reflexivity.
Qed.

Lemma sub_Z_end_newline x :
  sub_Z_end (x +:+ "Z" +:+ String "010" "")
  = x +:+ "+00:00" +:+ String "010" "".
Proof.
  unfold sub_Z_end.
  rewrite list_ascii_of_string_app, List.rev_app_distr. simpl.
  now rewrite string_of_rev_rev.
Qed.

Lemma sub_Z_end_offset_newline x :
  sub_Z_end (x +:+ "+00:00" +:+ String "010" "")
  = x +:+ "+00:00" +:+ String "010" "".
Proof.
  unfold sub_Z_end.
  rewrite list_ascii_of_string_app, List.rev_app_distr. reflexivity.
Qed.

Lemma sub_Z_end_trichotomy s :
  sub_Z_end s = s
  \/ (exists x, s = x +:+ "Z" /\ sub_Z_end s = x +:+ "+00:00")
  \/ (exists x, s = x +:+ "Z" +:+ String "010" ""
                /\ sub_Z_end s = x +:+ "+00:00" +:+ String "010" "").
Proof.
  pose proof (sub_Z_end_cases s) as Hc.
  destruct (rev (list_ascii_of_string s)) as [|c r] eqn:Hrev; [now left|].
  apply string_snoc in Hrev.
  destruct (Ascii.eqb c "Z") eqn:Ec.
  - apply Ascii.eqb_eq in Ec. subst c. right. left.
    exists (string_of_list_ascii (rev r)). now split.
  - destruct (Ascii.eqb c "010") eqn:En; [|now left].
    apply Ascii.eqb_eq in En. subst c.
    destruct r as [|c' r']; [now left|].
    destruct (Ascii.eqb c' "Z") eqn:Ec'; [|now left].
    apply Ascii.eqb_eq in Ec'. subst c'. right. right.
    exists (string_of_list_ascii (rev r')). split; [|exact Hc].
    rewrite Hrev. simpl. rewrite string_of_list_ascii_app. simpl.
    now rewrite string_append_assoc.
Qed.

(** X17. What [re.sub(r"Z$", "+00:00", s)] does to a string. It rewrites
    a [Z] that ends the string and also a [Z] followed by a final
    newline (the newline is kept); every other string is left as it is,
    so at most one [Z] is rewritten; applying it twice is the same as
    applying it once. *)
Theorem sub_Z_end_rewrites_final_Z :
  (forall x, sub_Z_end (x +:+ "Z" +:+ String "010" "")
             = x +:+ "+00:00" +:+ String "010" "")
  /\ (forall s,
        sub_Z_end s = s
        \/ (exists x, s = x +:+ "Z" /\ sub_Z_end s = x +:+ "+00:00")
        \/ (exists x, s = x +:+ "Z" +:+ String "010" ""
                      /\ sub_Z_end s = x +:+ "+00:00" +:+ String "010" ""))
  /\ (forall s, sub_Z_end (sub_Z_end s) = sub_Z_end s)
  /\ sub_Z_end "2023-05-01T00:00:00ZZ" = "2023-05-01T00:00:00Z+00:00"
  /\ sub_Z_end "2023-05-01T00:00:00z" = "2023-05-01T00:00:00z".
Proof.
  split; [apply sub_Z_end_newline|]. split; [apply sub_Z_end_trichotomy|].
  split; [|split; reflexivity].
  intros s.
  destruct (sub_Z_end_trichotomy s)
    as [Hs|[(x & _ & ->)|(x & _ & ->)]].
  - now rewrite Hs.
  - apply sub_Z_end_offset.
  - apply sub_Z_end_offset_newline.
Qed.

Lemma stripped_no_final_newline s x :
  stripped s = true -> s <> x +:+ "Z" +:+ String "010" "".
Proof.
  intros Hs ->. unfold stripped in Hs. apply andb_prop in Hs as [_ Hs].
  rewrite list_ascii_of_string_app, List.rev_app_distr in Hs.
  discriminate Hs.
Qed.

(** X18. Composition of the resolver with the normaliser. A value of the
    mapping returned by [query_sequence] never ends in a newline, so for
    the timestamp that [_check_git] hands to [parse_timestamp] the
    rewrite acts on a final [Z] or not at all: the parser receives the
    value itself, or the value with its final [Z] replaced by [+00:00]. *)
Theorem resolved_timestamp_rewrite env data plan h m h' k s :
  query_sequence env data plan h = (inr m, h') ->
  dict_get m k = Some s ->
  (forall x, s <> x +:+ "Z" +:+ String "010" "")
  /\ (sub_Z_end s = s
      \/ exists x, s = x +:+ "Z"
                   /\ parse_timestamp env (Some s)
                      = parse_timestamp env (Some (x +:+ "+00:00"))
                   /\ sub_Z_end s = x +:+ "+00:00").
Proof.
  intros Hrun Hget.
  assert (Hs : stripped s = true).
  { assert (Hall : List.Forall (fun kv => stripped (snd kv) = true) m).
    { eapply query_sequence_from_stripped; [|exact Hrun]. constructor. }
    rewrite List.Forall_forall in Hall.
    exact (Hall _ (dict_get_In _ _ _ Hget)). }
  split; [intros x; now apply stripped_no_final_newline|].
  destruct (sub_Z_end_trichotomy s) as [H|[(x & -> & H)|(x & -> & _)]].
  - now left.
  - right. exists x. split; [reflexivity|]. split; [|exact H].
    unfold parse_timestamp. now rewrite sub_Z_end_Z, sub_Z_end_offset.
  - exfalso. now apply (stripped_no_final_newline _ x Hs).
Qed.

Lemma resolved_timestamp_rewrite_witness :
  query_sequence (Demo.env true) Demo.document
    [("tag", Some ".t"); ("timestamp", Some ".d")] []
  = (inr [("tag", "v2.0"); ("timestamp", "2023-05-01T00:00:00Z")],
     [EvRun (jq_cmd ".t" (Some [])) Demo.document;
      EvRun (jq_cmd ".d" (Some [("tag", "v2.0")])) Demo.document])
  /\ forall x, "2023-05-01T00:00:00Z" <> x +:+ "Z" +:+ String "010" "".
Proof.
  split; [reflexivity|].
  exact (proj1 (resolved_timestamp_rewrite
                  (Demo.env true) Demo.document
                  [("tag", Some ".t"); ("timestamp", Some ".d")] []
                  [("tag", "v2.0"); ("timestamp", "2023-05-01T00:00:00Z")]
                  [EvRun (jq_cmd ".t" (Some [])) Demo.document;
                   EvRun (jq_cmd ".d" (Some [("tag", "v2.0")]))
                         Demo.document]
                  "timestamp" "2023-05-01T00:00:00Z"
                  eq_refl eq_refl)).
Defined.

(** ** The schema and the code *)

Lemma has_key_spec (cd : gmap string string) k :
  bool_decide (is_Some (cd !! k)) = true <-> is_Some (cd !! k).
Proof. apply bool_decide_eq_true. Qed.

Lemma validates_spec (cd : gmap string string) :
  validates CHECKER_DATA_SCHEMA cd = true <->
  is_Some (cd !! "url")
  /\ (is_Some (cd !! "tag-query")
      \/ (is_Some (cd !! "version-query") /\ is_Some (cd !! "url-query"))).
Proof.
  unfold validates, CHECKER_DATA_SCHEMA, has_keys, property_ok. simpl.
  assert (Hprops :
    match cd !! "url" with Some _ => true | None => true end
    && (match cd !! "tag-query" with Some _ => true | None => true end
    && (match cd !! "commit-query" with Some _ => true | None => true end
    && (match cd !! "version-query" with Some _ => true | None => true end
    && (match cd !! "url-query" with Some _ => true | None => true end
    && (match cd !! "timestamp-query" with Some _ => true | None => true end
    && true))))) = true).
  { destruct (cd !! "url"), (cd !! "tag-query"), (cd !! "commit-query"),
      (cd !! "version-query"), (cd !! "url-query"),
      (cd !! "timestamp-query"); reflexivity. }
  rewrite Hprops. simpl.
  rewrite !andb_true_r, orb_false_r.
  rewrite andb_true_iff, orb_true_iff, andb_true_iff, !has_key_spec.
  tauto.
Qed.

Lemma json_has_type_string v :
  json_has_type "string" v = true <-> exists s, v = JString s.
Proof.
  destruct v; simpl; split; try discriminate; eauto; intros [s [=]].
Qed.

Lemma declared_properties_are_strings k ty fmt :
  In (k, (ty, fmt)) (properties CHECKER_DATA_SCHEMA) -> ty = "string".
Proof.
  simpl. intros [[=]|[[=]|[[=]|[[=]|[[=]|[[=]|[]]]]]]]; now subst.
Qed.

Lemma validates_json_spec (cfg : gmap string json) :
  validates_json CHECKER_DATA_SCHEMA cfg = true <->
  (forall k v, In k (map fst (properties CHECKER_DATA_SCHEMA)) ->
               cfg !! k = Some v -> exists s, v = JString s)
  /\ is_Some (cfg !! "url")
  /\ (is_Some (cfg !! "tag-query")
      \/ (is_Some (cfg !! "version-query") /\ is_Some (cfg !! "url-query"))).
Proof.
  unfold validates_json. rewrite !andb_true_iff, forallb_forall.
  assert (Hkeys :
    has_keys_json cfg (required CHECKER_DATA_SCHEMA) = true
    /\ existsb (has_keys_json cfg) (anyOf CHECKER_DATA_SCHEMA) = true
    <-> is_Some (cfg !! "url")
        /\ (is_Some (cfg !! "tag-query")
            \/ (is_Some (cfg !! "version-query")
                /\ is_Some (cfg !! "url-query")))).
  { unfold has_keys_json. simpl.
    rewrite !andb_true_r, orb_false_r, orb_true_iff, andb_true_iff,
      !bool_decide_eq_true.
    tauto. }
  split.
  - intros [[Hprops Hreq] Hany]. split; [|now apply Hkeys].
    intros k v Hin Hk.
    apply in_map_iff in Hin as ([k' [ty fmt]] & Hfst & Hin).
    simpl in Hfst. subst k'.
    pose proof (Hprops _ Hin) as Hp.
    rewrite (declared_properties_are_strings _ _ _ Hin) in Hp.
    unfold property_ok_json in Hp. simpl in Hp. rewrite Hk in Hp.
    now apply json_has_type_string.
  - intros (Hstr & Hrest). apply Hkeys in Hrest as [Hreq Hany].
    split; [split|]; [|exact Hreq|exact Hany].
    intros [k [ty fmt]] Hin.
    rewrite (declared_properties_are_strings _ _ _ Hin).
    unfold property_ok_json. simpl.
    destruct (cfg !! k) as [v|] eqn:Hk; [|reflexivity].
    apply json_has_type_string. apply (Hstr k); [|exact Hk].
    apply in_map_iff. now exists (k, (ty, fmt)).
Qed.

Lemma forallb_pointwise {A} (f g : A -> bool) l :
  (forall x, f x = g x) -> forallb f l = forallb g l.
Proof.
  intros Hfg. induction l as [|x l IH]; [reflexivity|].
  simpl. now rewrite Hfg, IH.
Qed.

Lemma validates_json_of_strings s (cd : gmap string string) :
  validates_json s (JString <$> cd) = validates s cd.
Proof.
  unfold validates_json, validates.
  assert (Hkeys : forall keys,
            has_keys_json (JString <$> cd) keys = has_keys cd keys).
  { intros keys. unfold has_keys_json, has_keys.
    apply forallb_pointwise. intros k. apply bool_decide_ext.
    rewrite lookup_fmap. apply fmap_is_Some. }
  f_equal; [f_equal|].
  - apply forallb_pointwise. intros p. unfold property_ok_json, property_ok.
    rewrite lookup_fmap. destruct (cd !! fst p); simpl; [|reflexivity].
    unfold json_has_type. reflexivity.
  - apply Hkeys.
  - induction (anyOf s) as [|keys alts IH]; [reflexivity|].
    simpl. now rewrite Hkeys, IH.
Qed.

Lemma reads_as_lookup cfg cd k :
  reads_as CHECKER_DATA_SCHEMA cfg cd = true ->
  In k (map fst (properties CHECKER_DATA_SCHEMA)) ->
  cd !! k = cfg !! k ≫= json_str.
Proof.
  unfold reads_as. rewrite forallb_forall. intros Hall Hin.
  apply (bool_decide_eq_true_1 _ (Hall k Hin)).
Qed.

Lemma valid_entry_is_read cfg cd k :
  validates_json CHECKER_DATA_SCHEMA cfg = true ->
  reads_as CHECKER_DATA_SCHEMA cfg cd = true ->
  In k (map fst (properties CHECKER_DATA_SCHEMA)) ->
  is_Some (cfg !! k) ->
  exists s, cfg !! k = Some (JString s) /\ cd !! k = Some s.
Proof.
  intros Hvalid Hread Hin [v Hk].
  apply validates_json_spec in Hvalid as [Hstr _].
  destruct (Hstr k v Hin Hk) as [s ->]. exists s. split; [exact Hk|].
  rewrite (reads_as_lookup _ _ _ Hread Hin), Hk. reflexivity.
Qed.

Lemma check_gets_url env ed h json_url :
  checker_data ed !! "url" = Some json_url ->
  should_check env ed = true ->
  exists rest, snd (check env ed h) = h ++ EvGet json_url :: rest.
Proof.
  intros Hurl Hok.
  destruct (check_shape env ed h)
    as [Hsame|(json_url' & rest & Hurl' & Heq & _)].
  - exfalso. revert Hsame. unfold check. rewrite Hok.
    rewrite (bind_ok _ _ _ tt h) by reflexivity.
    lookup_ok json_url Hurl.
    destruct (session_get env h json_url) as [e|json_data] eqn:Hget.
    + rewrite (bind_raises _ _ _
                 (if NETWORK_ERRORS env e then CheckerQueryError None e
                  else e) (h ++ [EvGet json_url]))
        by (unfold try_reraise, call; now rewrite Hget).
      simpl. intros Hsame. apply (f_equal (@length event)) in Hsame.
      rewrite List.length_app in Hsame. simpl in Hsame. lia.
    + rewrite (bind_ok _ _ _ json_data (h ++ [EvGet json_url]))
        by (unfold try_reraise, call; now rewrite Hget).
      intros Hsame.
      assert (Hlen : length (h ++ [EvGet json_url])
                     <= length (snd (match ed with
                                     | IsData d => _check_data env json_data d
                                     | IsGitRepo r =>
                                         _check_git env json_data r
                                     end (h ++ [EvGet json_url])))).
      { destruct ed as [d|r].
        - destruct (check_data_shape env json_data d (h ++ [EvGet json_url]))
            as (runs & tail & -> & _).
          rewrite (List.length_app (h ++ [EvGet json_url])). lia.
        - destruct (check_git_shape env json_data r (h ++ [EvGet json_url]))
            as (runs & tail & -> & _).
          rewrite (List.length_app (h ++ [EvGet json_url])). lia. }
      rewrite Hsame, List.length_app in Hlen. simpl in Hlen. lia.
  - exists rest. rewrite Hurl in Hurl'. inversion Hurl'. subst json_url'.
    exact Heq.
Qed.

(** X19. The schema, and what it buys the code. A configuration, whose
    values may be any JSON value, validates against [CHECKER_DATA_SCHEMA]
    exactly when every declared property it has is a string, it has
    ["url"], and it has either ["tag-query"] or both ["version-query"] and
    ["url-query"]; so a declared property that is no string is rejected.
    On configurations of strings this is the check on the checker's own
    mapping. When an eligible record carries a valid configuration, its
    ["url"] is a string, the mapping the checker reads validates too, and
    [check] never fails on the ["url"] lookup: the GET of that url is the
    first call it makes. *)
Theorem valid_configuration_is_fetched env ed h (cfg : gmap string json) :
  (validates_json CHECKER_DATA_SCHEMA cfg = true <->
   (forall k v, In k (map fst (properties CHECKER_DATA_SCHEMA)) ->
                cfg !! k = Some v -> exists s, v = JString s)
   /\ is_Some (cfg !! "url")
   /\ (is_Some (cfg !! "tag-query")
       \/ (is_Some (cfg !! "version-query")
           /\ is_Some (cfg !! "url-query"))))
  /\ (forall k v, In k (map fst (properties CHECKER_DATA_SCHEMA)) ->
                  cfg !! k = Some v -> jq_type v <> "string" ->
                  validates_json CHECKER_DATA_SCHEMA cfg = false)
  /\ (forall s cd, validates_json s (JString <$> cd) = validates s cd)
  /\ (validates_json CHECKER_DATA_SCHEMA cfg = true ->
      reads_as CHECKER_DATA_SCHEMA cfg (checker_data ed) = true ->
      should_check env ed = true ->
      validates CHECKER_DATA_SCHEMA (checker_data ed) = true
      /\ exists json_url rest,
           cfg !! "url" = Some (JString json_url)
           /\ checker_data ed !! "url" = Some json_url
           /\ snd (check env ed h) = h ++ EvGet json_url :: rest).
Proof.
  split; [apply validates_json_spec|].
  split.
  { intros k v Hin Hk Hty.
    destruct (validates_json CHECKER_DATA_SCHEMA cfg) eqn:Hvalid;
      [|reflexivity].
    apply validates_json_spec in Hvalid as [Hstr _].
    destruct (Hstr k v Hin Hk) as [s ->]. now contradiction Hty. }
  split; [apply validates_json_of_strings|].
  intros Hvalid Hread Hok.
  assert (Hentry : forall k,
            In k (map fst (properties CHECKER_DATA_SCHEMA)) ->
            is_Some (cfg !! k) -> is_Some (checker_data ed !! k)).
  { intros k Hin Hk.
    destruct (valid_entry_is_read _ _ _ Hvalid Hread Hin Hk)
      as (s & _ & Hcd).
    now exists s. }
  pose proof Hvalid as Hshape.
  apply validates_json_spec in Hshape as (_ & Hurl & Halt).
  split.
  - apply validates_spec. split.
    + apply Hentry; [simpl; tauto|exact Hurl].
    + destruct Halt as [Htag|[Hv Hu]].
      * left. apply Hentry; [simpl; tauto|exact Htag].
      * right. split; apply Hentry; simpl; tauto.
  - destruct (valid_entry_is_read _ _ "url" Hvalid Hread) as (u & Hcfg & Hcd);
      [simpl; tauto|exact Hurl|].
    destruct (check_gets_url env ed h u Hcd Hok) as [rest Heq].
    now exists u, rest.
Qed.

Lemma valid_configuration_is_fetched_witness :
  validates_json CHECKER_DATA_SCHEMA
    (<["url" := JString "https://x/v.json"]>
       (<["tag-query" := JString ".t"]> (<["retries" := JNumber "3"]> ∅)))
  = true
  /\ validates_json CHECKER_DATA_SCHEMA
       (<["url" := JNumber "7"]> (<["tag-query" := JString ".t"]> ∅))
     = false
  /\ exists rest,
       snd (check (Demo.env true)
              (IsGitRepo (Demo.repo [("url", "https://x/v.json");
                                     ("tag-query", ".t")])) [])
       = [] ++ EvGet "https://x/v.json" :: rest.
Proof.
  split; [reflexivity|]. split; [reflexivity|].
  pose (cfg := <["url" := JString "https://x/v.json"]>
                 (<["tag-query" := JString ".t"]>
                    (<["retries" := JNumber "3"]> (∅ : gmap string json)))).
  pose (ed := IsGitRepo (Demo.repo [("url", "https://x/v.json");
                                    ("tag-query", ".t")])).
  assert (Hvalid : validates_json CHECKER_DATA_SCHEMA cfg = true)
    by reflexivity.
  assert (Hread : reads_as CHECKER_DATA_SCHEMA cfg (checker_data ed) = true)
    by reflexivity.
  assert (Hok : should_check (Demo.env true) ed = true) by reflexivity.
  destruct (proj2 (proj2 (proj2
             (valid_configuration_is_fetched (Demo.env true) ed [] cfg)))
             Hvalid Hread Hok)
    as (_ & json_url & rest & Hcfg & _ & Heq).
  exists rest.
  assert (Hurl : json_url = "https://x/v.json")
    by (vm_compute in Hcfg; now inversion Hcfg).
  rewrite Hurl in Heq. exact Heq.
Defined.

(** ** Success, and how the flows use the mapping *)

(** X20. No silent success. [check] returns normally only after the GET
    and after telling the collaborator: for a plain record the last call
    is [_update_version] on that record with [follow_redirects=False],
    for a git repository it is [set_new_version] on that repository. *)
Theorem check_success_records_version env ed h :
  fst (check env ed h) = inr tt ->
  exists json_url front last_call,
    checker_data ed !! "url" = Some json_url
    /\ snd (check env ed h) = h ++ EvGet json_url :: front ++ [last_call]
    /\ match ed, last_call with
       | IsData d, EvUpdateVersion d' _ _ flag => d' = d /\ flag = false
       | IsGitRepo r, EvSetNewVersion r' _ => r' = r
       | _, _ => False
       end.
Proof.
  unfold check.
  destruct (should_check env ed); [|discriminate].
  rewrite (bind_ok _ _ _ tt h) by reflexivity.
  unfold config_item.
  destruct (checker_data ed !! "url") as [json_url|]; [|discriminate].
  rewrite (bind_lift_ok _ _ _ json_url) by reflexivity.
  destruct (session_get env h json_url) as [e|json_data] eqn:Hget.
  { rewrite (bind_raises _ _ _
               (if NETWORK_ERRORS env e then CheckerQueryError None e else e)
               (h ++ [EvGet json_url]))
      by (unfold try_reraise, call; now rewrite Hget).
    discriminate. }
  rewrite (bind_ok _ _ _ json_data (h ++ [EvGet json_url]))
    by (unfold try_reraise, call; now rewrite Hget).
  intros Hok. exists json_url.
  destruct ed as [d|r].
  - destruct (check_data_shape env json_data d (h ++ [EvGet json_url]))
      as (runs & tail & Heq & _ & Htail & Hlast).
    destruct Htail as [->|(v & u & ->)]; [now destruct (Hlast Hok)|].
    exists runs, (EvUpdateVersion d v u false).
    split; [reflexivity|]. split; [|now split].
    rewrite Heq. now rewrite <- List.app_assoc.
  - destruct (check_git_shape env json_data r (h ++ [EvGet json_url]))
      as (runs & tail & Heq & _ & _ & Hlast).
    destruct (Hlast Hok) as (front & ref & ->).
    exists (runs ++ front), (EvSetNewVersion r ref).
    split; [reflexivity|]. split; [|reflexivity].
    rewrite Heq. now rewrite <- !List.app_assoc.
Qed.

Lemma check_success_records_version_witness :
  fst (check (Demo.env true)
         (IsGitRepo (Demo.repo [("url", "https://x/v.json");
                                ("tag-query", ".t")])) [])
  = inr tt
  /\ exists json_url front last_call,
       snd (check (Demo.env true)
              (IsGitRepo (Demo.repo [("url", "https://x/v.json");
                                     ("tag-query", ".t")])) [])
       = [] ++ EvGet json_url :: front ++ [last_call].
Proof.
  split; [reflexivity|].
  destruct (check_success_records_version
              (Demo.env true)
              (IsGitRepo (Demo.repo [("url", "https://x/v.json");
                                     ("tag-query", ".t")])) [] eq_refl)
    as (json_url & front & last_call & _ & Heq & _).
  exists json_url, front, last_call. exact Heq.
Defined.

Lemma check_git_flow env json_data r h tq results h1 t ts :
  repo_checker_data r !! "tag-query" = Some tq ->
  query_sequence env json_data
    [("tag", Some tq);
     ("commit", repo_checker_data r !! "commit-query");
     ("version", repo_checker_data r !! "version-query");
     ("timestamp", repo_checker_data r !! "timestamp-query")] h
  = (inr results, h1) ->
  dict_get results "tag" = Some t ->
  parse_timestamp env (dict_get results "timestamp") = inr ts ->
  _check_git env json_data r h
  = bind (match dict_get results "commit" with
          | None =>
              call (EvFetchRemote
                      {| url := url (current_version r); commit := None;
                         tag := t; branch := None;
                         version := dict_get results "version";
                         timestamp := ts |})
                   (fun h' =>
                      fetch_remote env h'
                        {| url := url (current_version r); commit := None;
                           tag := t; branch := None;
                           version := dict_get results "version";
                           timestamp := ts |})
          | Some c =>
              ret {| url := url (current_version r); commit := Some c;
                     tag := t; branch := None;
                     version := dict_get results "version";
                     timestamp := ts |}
          end)
         (fun new_version =>
            call (EvSetNewVersion r new_version)
                 (fun h' => set_new_version env h' r new_version)) h1.
Proof.
  intros Htq Hrun Htag Hts. unfold _check_git. cbv zeta.
  lookup_ok tq Htq. rewrite (bind_ok _ _ _ _ _ Hrun). lookup_ok t Htag.
  rewrite (bind_lift_ok _ _ _ ts) by exact Hts.
  cbn [commit]. now destruct (dict_get results "commit").
Qed.

(** X21. Whether the remote is consulted is decided by the configuration.
    In a run of [_check_git] that builds its record: if ["commit-query"]
    is absent or empty, the record has no commit and the first call after
    the jq calls is [fetch_remote] on it; if ["commit-query"] is
    non-empty, the record carries the commit jq returned and goes to
    [set_new_version] directly, with no [fetch_remote]. *)
Theorem check_git_commit_query_decides_fetch
    env json_data r h tq results h1 t ts :
  repo_checker_data r !! "tag-query" = Some tq ->
  query_sequence env json_data
    [("tag", Some tq);
     ("commit", repo_checker_data r !! "commit-query");
     ("version", repo_checker_data r !! "version-query");
     ("timestamp", repo_checker_data r !! "timestamp-query")] h
  = (inr results, h1) ->
  dict_get results "tag" = Some t ->
  parse_timestamp env (dict_get results "timestamp") = inr ts ->
  let record :=
    {| url := url (current_version r);
       commit := dict_get results "commit";
       tag := t; branch := None;
       version := dict_get results "version";
       timestamp := ts |} in
  (falsy (repo_checker_data r !! "commit-query") = true ->
   commit record = None
   /\ exists rest,
        snd (_check_git env json_data r h)
        = h1 ++ EvFetchRemote record :: rest)
  /\ (falsy (repo_checker_data r !! "commit-query") = false ->
      is_Some (commit record)
      /\ _check_git env json_data r h
         = (set_new_version env h1 r record,
            h1 ++ [EvSetNewVersion r record])).
Proof.
  intros Htq Hrun Htag Hts record.
  pose proof (check_git_flow _ _ _ _ _ _ _ _ _ Htq Hrun Htag Hts) as Hflow.
  split.
  - intros Hskip.
    assert (Hnone : dict_get results "commit" = None).
    { apply (query_sequence_key_absent _ _ _ _ _ _ _ Hrun).
      intros q [[=]|[[= <-]|[[=]|[[=]|[]]]]]. exact Hskip. }
    split; [exact Hnone|].
    rewrite Hflow, Hnone. unfold record. rewrite Hnone.
    unfold bind, call.
    destruct (fetch_remote env h1 _) as [e|resolved].
    + now exists [].
    + exists [EvSetNewVersion r resolved]. simpl.
      now rewrite <- List.app_assoc.
  - intros Hkeep.
    assert (Hsome : is_Some (dict_get results "commit")).
    { apply (query_sequence_key_present _ _ _ _ _ _ _
               (repo_checker_data r !! "commit-query") Hrun);
        [right; now left|exact Hkeep]. }
    split; [exact Hsome|].
    rewrite Hflow. unfold record.
    destruct Hsome as [c Hc]. rewrite Hc. reflexivity.
Qed.

Lemma check_git_commit_query_decides_fetch_witness :
  falsy (repo_checker_data (Demo.repo [("tag-query", ".t")])
           !! "commit-query") = true
  /\ exists rest,
       snd (_check_git (Demo.env true) Demo.document
              (Demo.repo [("tag-query", ".t")]) [])
       = [EvRun (jq_cmd ".t" (Some [])) Demo.document]
         ++ EvFetchRemote
              {| url := url (current_version (Demo.repo [("tag-query", ".t")]));
                 commit := dict_get [("tag", "v2.0")] "commit";
                 tag := "v2.0"; branch := None;
                 version := dict_get [("tag", "v2.0")] "version";
                 timestamp := None |} :: rest.
Proof.
  split; [reflexivity|].
  exact (proj2 (proj1 (check_git_commit_query_decides_fetch
                         (Demo.env true) Demo.document
                         (Demo.repo [("tag-query", ".t")]) [] ".t"
                         [("tag", "v2.0")]
                         [EvRun (jq_cmd ".t" (Some [])) Demo.document]
                         "v2.0" None
                         eq_refl eq_refl eq_refl eq_refl)
                      eq_refl)).
Defined.

(** X22. In the plain flow the url query sees the version that is handed
    off. With non-empty ["version-query"] and ["url-query"] and a plan
    that resolves, the last jq call is the one for the url query, its
    variables bind ["version"] to the value [v] that [_update_version]
    then receives, and they do not bind ["url"]. *)
Theorem check_data_url_query_sees_version
    env json_data d h vq uq results h1 :
  data_checker_data d !! "version-query" = Some vq ->
  data_checker_data d !! "url-query" = Some uq ->
  falsy (Some vq) = false ->
  falsy (Some uq) = false ->
  query_sequence env json_data
    [("tag", data_checker_data d !! "tag-query");
     ("commit", data_checker_data d !! "commit-query");
     ("version", Some vq); ("url", Some uq)] h = (inr results, h1) ->
  exists v u seen front,
    h1 = front ++ [EvRun (jq_cmd uq (Some seen)) json_data]
    /\ dict_get seen "version" = Some v
    /\ dict_get seen "url" = None
    /\ _check_data env json_data d h
       = (_update_version env h1 d v u false,
          h1 ++ [EvUpdateVersion d v u false]).
Proof.
  intros Hvq Huq Hv Hu Hrun.
  pose proof Hrun as Hsplit. unfold query_sequence in Hsplit.
  change [("tag", data_checker_data d !! "tag-query");
          ("commit", data_checker_data d !! "commit-query");
          ("version", Some vq); ("url", Some uq)]
    with ([("tag", data_checker_data d !! "tag-query");
           ("commit", data_checker_data d !! "commit-query");
           ("version", Some vq)] ++ [("url", Some uq)]) in Hsplit.
  rewrite query_sequence_from_app in Hsplit. unfold bind at 1 in Hsplit.
  destruct (query_sequence_from env [] json_data
              [("tag", data_checker_data d !! "tag-query");
               ("commit", data_checker_data d !! "commit-query");
               ("version", Some vq)] h) as [[e|seen] h3] eqn:Hpre;
    [discriminate|].
  rewrite (query_sequence_from_eval _ _ _ _ _ _ _ Hu) in Hsplit.
  unfold bind in Hsplit. rewrite query_json_run in Hsplit.
  destruct (query_json_outcome env _) as [e|u]; [discriminate|].
  simpl in Hsplit. inversion Hsplit; subst results h1. clear Hsplit.
  fold (query_sequence env json_data
          [("tag", data_checker_data d !! "tag-query");
           ("commit", data_checker_data d !! "commit-query");
           ("version", Some vq)] h) in Hpre.
  destruct (query_sequence_key_present _ _ _ _ _ _ "version" (Some vq) Hpre)
    as [v Hseen]; [right; right; now left|exact Hv|].
  assert (Hnourl : dict_get seen "url" = None).
  { apply (query_sequence_key_absent _ _ _ _ _ _ _ Hpre).
    intros q [[=]|[[=]|[[=]|[]]]]. }
  exists v, u, seen, h3.
  split; [reflexivity|]. split; [exact Hseen|]. split; [exact Hnourl|].
  unfold _check_data. cbv zeta. lookup_ok vq Hvq. lookup_ok uq Huq.
  rewrite (bind_ok _ _ _ _ _ Hrun).
  rewrite (bind_lift_ok _ _ _ v)
    by (unfold dict_item; rewrite dict_get_set_ne by discriminate;
        now rewrite Hseen).
  rewrite (bind_lift_ok _ _ _ u)
    by (unfold dict_item; now rewrite dict_get_set_eq).
  reflexivity.
Qed.

Lemma check_data_url_query_sees_version_witness :
  query_sequence (Demo.env true) Demo.document
    [("tag", None); ("commit", None);
     ("version", Some ".v"); ("url", Some "$version")] []
  = (inr [("version", "1.2.3"); ("url", "1.2.3")],
     [EvRun (jq_cmd ".v" (Some [])) Demo.document;
      EvRun (jq_cmd "$version" (Some [("version", "1.2.3")]))
            Demo.document])
  /\ exists v u seen front,
       [EvRun (jq_cmd ".v" (Some [])) Demo.document;
        EvRun (jq_cmd "$version" (Some [("version", "1.2.3")]))
              Demo.document]
       = front ++ [EvRun (jq_cmd "$version" (Some seen)) Demo.document]
       /\ dict_get seen "version" = Some v
       /\ fst (_check_data (Demo.env true) Demo.document
                 (Demo.plain [("version-query", ".v");
                              ("url-query", "$version")]) [])
          = _update_version (Demo.env true)
              [EvRun (jq_cmd ".v" (Some [])) Demo.document;
               EvRun (jq_cmd "$version" (Some [("version", "1.2.3")]))
                     Demo.document]
              (Demo.plain [("version-query", ".v");
                           ("url-query", "$version")])
              v u false.
Proof.
  split; [reflexivity|].
  destruct (check_data_url_query_sees_version
              (Demo.env true) Demo.document
              (Demo.plain [("version-query", ".v");
                           ("url-query", "$version")])
              [] ".v" "$version"
              [("version", "1.2.3"); ("url", "1.2.3")]
              [EvRun (jq_cmd ".v" (Some [])) Demo.document;
               EvRun (jq_cmd "$version" (Some [("version", "1.2.3")]))
                     Demo.document]
              eq_refl eq_refl eq_refl eq_refl eq_refl)
    as (v & u & seen & front & Hh & Hseen & _ & Hflow).
  exists v, u, seen, front. split; [exact Hh|]. split; [exact Hseen|].
  now rewrite Hflow.
Defined.

(** ** The flows after a plan that resolves *)

Lemma runs_are_not_fetches data runs :
  List.Forall (run_on data) runs -> List.filter is_EvFetchRemote runs = [].
Proof.
  induction 1 as [|ev runs (argv & ->) _ IH]; [reflexivity|exact IH].
Qed.

(** C8, as worded, fails on an empty ["version-query"], which the schema
    accepts: the entry is skipped, the plan resolves to a mapping without
    ["version"], and [_check_data] raises [KeyError("version")] without
    calling [_update_version]. *)
Lemma plain_flow_may_not_hand_off :
  validates CHECKER_DATA_SCHEMA
    (data_checker_data
       (Demo.plain [("url", "https://x/v.json");
                    ("version-query", ""); ("url-query", ".u")])) = true
  /\ query_sequence (Demo.env true) Demo.document
       [("tag", None); ("commit", None);
        ("version", Some ""); ("url", Some ".u")] []
     = (inr [("url", "https://x/1.2.3.tgz")],
        [EvRun (jq_cmd ".u" (Some [])) Demo.document])
  /\ _check_data (Demo.env true) Demo.document
       (Demo.plain [("url", "https://x/v.json");
                    ("version-query", ""); ("url-query", ".u")]) []
     = (inl (KeyError "version"),
        [EvRun (jq_cmd ".u" (Some [])) Demo.document])
  /\ ~ plain_flow_always_hands_off.
Proof.
  split; [reflexivity|]. split; [reflexivity|]. split; [reflexivity|].
  intros H.
  destruct (H (Demo.env true) Demo.document
              (Demo.plain [("url", "https://x/v.json");
                           ("version-query", ""); ("url-query", ".u")])
              [] "" ".u" [("url", "https://x/1.2.3.tgz")]
              [EvRun (jq_cmd ".u" (Some [])) Demo.document]
              eq_refl eq_refl eq_refl)
    as (v & u & Hv & _).
  discriminate Hv.
Qed.

(** C8, amended. Plain-artifact flow. When the plan
    [tag, commit, version, url] resolves to [results], everything the
    history gained is a jq call. The mapping holds ["version"] exactly
    when ["version-query"] is non-empty, and ["url"] exactly when
    ["url-query"] is. With both, [_check_data] makes exactly one further
    call, [_update_version] with the record, the two values and
    [follow_redirects=False], and its answer is the outcome of the flow.
    Without one of them it raises [KeyError] on the first that is missing
    and calls nothing. *)
Theorem check_data_hands_off_version_and_url
    env json_data d h vq uq results h1 :
  data_checker_data d !! "version-query" = Some vq ->
  data_checker_data d !! "url-query" = Some uq ->
  query_sequence env json_data
    [("tag", data_checker_data d !! "tag-query");
     ("commit", data_checker_data d !! "commit-query");
     ("version", Some vq); ("url", Some uq)] h = (inr results, h1) ->
  (exists runs, h1 = h ++ runs /\ List.Forall (run_on json_data) runs)
  /\ (is_Some (dict_get results "version") <-> falsy (Some vq) = false)
  /\ (is_Some (dict_get results "url") <-> falsy (Some uq) = false)
  /\ _check_data env json_data d h
     = match dict_get results "version", dict_get results "url" with
       | Some v, Some u =>
           (_update_version env h1 d v u false,
            h1 ++ [EvUpdateVersion d v u false])
       | None, _ => (inl (KeyError "version"), h1)
       | Some _, None => (inl (KeyError "url"), h1)
       end.
Proof.
  intros Hvq Huq Hrun.
  split; [|split; [|split]].
  - destruct (query_sequence_from_runs_on _ _ _ _ _ _ _ Hrun)
      as (runs & -> & Hall & _).
    now exists runs.
  - split.
    + intros Hsome. destruct (falsy (Some vq)) eqn:Hskip; [|reflexivity].
      assert (Hnone : dict_get results "version" = None).
      { apply (query_sequence_key_absent _ _ _ _ _ _ _ Hrun).
        intros q [[=]|[[=]|[[= <-]|[[=]|[]]]]]. exact Hskip. }
      rewrite Hnone in Hsome. now destruct Hsome.
    + intros Hkeep.
      apply (query_sequence_key_present _ _ _ _ _ _ _ (Some vq) Hrun);
        [right; right; now left|exact Hkeep].
  - split.
    + intros Hsome. destruct (falsy (Some uq)) eqn:Hskip; [|reflexivity].
      assert (Hnone : dict_get results "url" = None).
      { apply (query_sequence_key_absent _ _ _ _ _ _ _ Hrun).
        intros q [[=]|[[=]|[[=]|[[= <-]|[]]]]]. exact Hskip. }
      rewrite Hnone in Hsome. now destruct Hsome.
    + intros Hkeep.
      apply (query_sequence_key_present _ _ _ _ _ _ _ (Some uq) Hrun);
        [right; right; right; now left|exact Hkeep].
  - unfold _check_data. cbv zeta. lookup_ok vq Hvq. lookup_ok uq Huq.
    rewrite (bind_ok _ _ _ _ _ Hrun). unfold dict_item.
    destruct (dict_get results "version") as [v|]; [|reflexivity].
    rewrite (bind_lift_ok _ _ _ v) by reflexivity.
    destruct (dict_get results "url") as [u|]; reflexivity.
Qed.

Lemma check_data_hands_off_version_and_url_witness :
  query_sequence (Demo.env true) Demo.document
    [("tag", None); ("commit", None);
     ("version", Some ".v"); ("url", Some ".u")] []
  = (inr [("version", "1.2.3"); ("url", "https://x/1.2.3.tgz")],
     [EvRun (jq_cmd ".v" (Some [])) Demo.document;
      EvRun (jq_cmd ".u" (Some [("version", "1.2.3")])) Demo.document])
  /\ snd (_check_data (Demo.env true) Demo.document
            (Demo.plain [("url", "https://x/v.json");
                         ("version-query", ".v"); ("url-query", ".u")]) [])
     = [EvRun (jq_cmd ".v" (Some [])) Demo.document;
        EvRun (jq_cmd ".u" (Some [("version", "1.2.3")])) Demo.document]
       ++ [EvUpdateVersion
             (Demo.plain [("url", "https://x/v.json");
                          ("version-query", ".v"); ("url-query", ".u")])
             "1.2.3" "https://x/1.2.3.tgz" false].
Proof.
  split; [reflexivity|].
  rewrite (proj2 (proj2 (proj2
             (check_data_hands_off_version_and_url
                (Demo.env true) Demo.document
                (Demo.plain [("url", "https://x/v.json");
                             ("version-query", ".v");
                             ("url-query", ".u")])
                [] ".v" ".u"
                [("version", "1.2.3"); ("url", "https://x/1.2.3.tgz")]
                [EvRun (jq_cmd ".v" (Some [])) Demo.document;
                 EvRun (jq_cmd ".u" (Some [("version", "1.2.3")]))
                       Demo.document]
                eq_refl eq_refl eq_refl)))).
  reflexivity.
Defined.

(** C5, as worded, fails when the plan resolves but no record is built.
    With an empty ["tag-query"] the plan resolves to the empty mapping in
    every environment and [_check_git] raises [KeyError("tag")] without
    any call; with a timestamp that does not parse it raises
    [CheckerQueryError] after the jq calls. The commit is absent in both
    runs and [fetch_remote] is not called. *)
Lemma git_flow_may_not_resolve_commit :
  (forall env json_data h,
     query_sequence env json_data
       [("tag", Some ""); ("commit", None); ("version", None);
        ("timestamp", None)] h = (inr [], h)
     /\ _check_git env json_data
          (Demo.repo [("url", "https://x/v.json"); ("tag-query", "")]) h
        = (inl (KeyError "tag"), h))
  /\ _check_git (Demo.env true) Demo.document
       (Demo.repo [("url", "https://x/v.json"); ("tag-query", ".t");
                   ("timestamp-query", ".bad")]) []
     = (inl (CheckerQueryError (Some "Failed to parse timestamp")
               (ValueError "Invalid isoformat string: not-a-date")),
        [EvRun (jq_cmd ".t" (Some [])) Demo.document;
         EvRun (jq_cmd ".bad" (Some [("tag", "v2.0")])) Demo.document])
  /\ ~ git_flow_always_resolves_commit.
Proof.
  split; [intros env json_data h; split; reflexivity|].
  split; [reflexivity|].
  intros H.
  specialize (H (Demo.env true) Demo.document
                (Demo.repo [("url", "https://x/v.json"); ("tag-query", "")])
                [] "" [] [] eq_refl eq_refl eq_refl).
  discriminate H.
Qed.

(** C5, amended. Git flow. When the plan
    [tag, commit, version, timestamp] resolves to [results], everything
    the history gained is a jq call, and the mapping holds ["tag"]
    exactly when ["tag-query"] is non-empty. Without ["tag"] the flow
    raises [KeyError("tag")], and with a timestamp that does not parse it
    raises the [CheckerQueryError] of [parse_timestamp]; no record is
    built and nothing is called. Otherwise the record built has the url
    of the current reference and no branch; without a ["commit"] result
    [fetch_remote] is called on that record, once, and [set_new_version]
    receives what it returned; with a ["commit"] result [set_new_version]
    receives the record itself and [fetch_remote] is not called. *)
Theorem check_git_resolves_commit env json_data r h tq results h1 :
  repo_checker_data r !! "tag-query" = Some tq ->
  query_sequence env json_data
    [("tag", Some tq);
     ("commit", repo_checker_data r !! "commit-query");
     ("version", repo_checker_data r !! "version-query");
     ("timestamp", repo_checker_data r !! "timestamp-query")] h
  = (inr results, h1) ->
  (exists runs, h1 = h ++ runs /\ List.Forall (run_on json_data) runs)
  /\ (is_Some (dict_get results "tag") <-> falsy (Some tq) = false)
  /\ _check_git env json_data r h
     = match dict_get results "tag" with
       | None => (inl (KeyError "tag"), h1)
       | Some t =>
           match parse_timestamp env (dict_get results "timestamp") with
           | inl e => (inl e, h1)
           | inr ts =>
               let record :=
                 {| url := url (current_version r);
                    commit := dict_get results "commit";
                    tag := t;
                    branch := None;
                    version := dict_get results "version";
                    timestamp := ts |} in
               match dict_get results "commit" with
               | None =>
                   match fetch_remote env h1 record with
                   | inl e => (inl e, h1 ++ [EvFetchRemote record])
                   | inr resolved =>
                       (set_new_version env (h1 ++ [EvFetchRemote record])
                                        r resolved,
                        h1 ++ [EvFetchRemote record;
                               EvSetNewVersion r resolved])
                   end
               | Some _ =>
                   (set_new_version env h1 r record,
                    h1 ++ [EvSetNewVersion r record])
               end
           end
       end
  /\ length (List.filter is_EvFetchRemote
               (snd (_check_git env json_data r h)))
     = length (List.filter is_EvFetchRemote h)
       + match dict_get results "tag",
               parse_timestamp env (dict_get results "timestamp"),
               dict_get results "commit" with
         | Some _, inr _, None => 1
         | _, _, _ => 0
         end.
Proof.
  intros Htq Hrun.
  destruct (query_sequence_from_runs_on _ _ _ _ _ _ _ Hrun)
    as (runs & Hh1 & Hall & _).
  assert (Hflow : _check_git env json_data r h
     = match dict_get results "tag" with
       | None => (inl (KeyError "tag"), h1)
       | Some t =>
           match parse_timestamp env (dict_get results "timestamp") with
           | inl e => (inl e, h1)
           | inr ts =>
               let record :=
                 {| url := url (current_version r);
                    commit := dict_get results "commit";
                    tag := t;
                    branch := None;
                    version := dict_get results "version";
                    timestamp := ts |} in
               match dict_get results "commit" with
               | None =>
                   match fetch_remote env h1 record with
                   | inl e => (inl e, h1 ++ [EvFetchRemote record])
                   | inr resolved =>
                       (set_new_version env (h1 ++ [EvFetchRemote record])
                                        r resolved,
                        h1 ++ [EvFetchRemote record;
                               EvSetNewVersion r resolved])
                   end
               | Some _ =>
                   (set_new_version env h1 r record,
                    h1 ++ [EvSetNewVersion r record])
               end
           end
       end).
  { destruct (dict_get results "tag") as [t|] eqn:Htag.
    - destruct (parse_timestamp env (dict_get results "timestamp"))
        as [e|ts] eqn:Hts.
      + unfold _check_git. cbv zeta. lookup_ok tq Htq.
        rewrite (bind_ok _ _ _ _ _ Hrun). lookup_ok t Htag.
        apply bind_raises. unfold lift. now rewrite Hts.
      + rewrite (check_git_flow _ _ _ _ _ _ _ _ _ Htq Hrun Htag Hts).
        cbv zeta. destruct (dict_get results "commit") as [c|]; [reflexivity|].
        unfold bind, call.
        destruct (fetch_remote env h1 _) as [e|resolved]; [reflexivity|].
        now rewrite <- List.app_assoc.
    - unfold _check_git. cbv zeta. lookup_ok tq Htq.
      rewrite (bind_ok _ _ _ _ _ Hrun).
      apply bind_raises. unfold lift, dict_item. now rewrite Htag. }
  split; [now exists runs|]. split; [|split; [exact Hflow|]].
  - split.
    + intros Hsome. destruct (falsy (Some tq)) eqn:Hskip; [|reflexivity].
      assert (Hnone : dict_get results "tag" = None).
      { apply (query_sequence_key_absent _ _ _ _ _ _ _ Hrun).
        intros q [[= <-]|[[=]|[[=]|[[=]|[]]]]]. exact Hskip. }
      rewrite Hnone in Hsome. now destruct Hsome.
    + intros Hkeep.
      apply (query_sequence_key_present _ _ _ _ _ _ _ (Some tq) Hrun);
        [now left|exact Hkeep].
  - rewrite Hflow. subst h1.
    pose proof (runs_are_not_fetches _ _ Hall) as Hnone.
    destruct (dict_get results "tag") as [t|].
    2:{ simpl. rewrite List.filter_app, Hnone, List.app_nil_r. lia. }
    destruct (parse_timestamp env (dict_get results "timestamp")) as [e|ts].
    { simpl. rewrite List.filter_app, Hnone, List.app_nil_r. lia. }
    cbv zeta. destruct (dict_get results "commit") as [c|].
    + simpl. rewrite !List.filter_app, Hnone. simpl.
      rewrite !List.app_nil_r. lia.
    + destruct (fetch_remote env (h ++ runs) _) as [e|resolved];
        simpl; rewrite !List.filter_app, Hnone; simpl;
        rewrite List.app_nil_r, List.length_app; simpl; lia.
Qed.

Lemma check_git_resolves_commit_witness :
  query_sequence (Demo.env true) Demo.document
    [("tag", Some ".t"); ("commit", None); ("version", None);
     ("timestamp", Some ".d")] []
  = (inr [("tag", "v2.0"); ("timestamp", "2023-05-01T00:00:00Z")],
     [EvRun (jq_cmd ".t" (Some [])) Demo.document;
      EvRun (jq_cmd ".d" (Some [("tag", "v2.0")])) Demo.document])
  /\ length (List.filter is_EvFetchRemote
               (snd (_check_git (Demo.env true) Demo.document
                       (Demo.repo [("url", "https://x/v.json");
                                   ("tag-query", ".t");
                                   ("timestamp-query", ".d")]) [])))
     = 0 + 1.
Proof.
  split; [reflexivity|].
  exact (proj2 (proj2 (proj2
           (check_git_resolves_commit
              (Demo.env true) Demo.document
              (Demo.repo [("url", "https://x/v.json"); ("tag-query", ".t");
                          ("timestamp-query", ".d")])
              [] ".t"
              [("tag", "v2.0"); ("timestamp", "2023-05-01T00:00:00Z")]
              [EvRun (jq_cmd ".t" (Some [])) Demo.document;
               EvRun (jq_cmd ".d" (Some [("tag", "v2.0")])) Demo.document]
              eq_refl eq_refl)))).
Defined.
